(** * analyze_template.py: the template inspector

    The script opens the workbook [prueba2.xlsx], reads row 1 of the active
    sheet as the header sequence and row 2 (when the sheet has one) as the
    sample row, prints the headers as an indented JSON array, pairs headers
    with sample values into a dict, turns date/time values into their
    [isoformat()] text and prints the dict as an indented JSON object.  The
    whole body sits in one [try: ... except Exception as e: print(...)].

    The development embeds the script together with the parts of the
    Python runtime it calls: [print], [zip], [dict], the live iteration of
    [dict.items()], [hasattr(v, 'isoformat')], [isoformat()] and
    [json.dumps(..., indent=2)]. *)

From Stdlib Require Import String Ascii DecimalString.
From Stdlib Require Import ZArith NArith Bool Lia List.
Import ListNotations.
Local Open Scope Z_scope.

(** ** Python text *)

(** A Python [str] is a sequence of Unicode code points. *)
Definition pystr := list N.

(** A literal of the script or of the runtime, written in ASCII. *)
Definition lit (s : string) : pystr :=
  map N_of_ascii (list_ascii_of_string s).

Definition NL : pystr := [10%N].

Definition pystr_eqb (a b : pystr) : bool :=
  if list_eq_dec N.eq_dec a b then true else false.

(** [str.join]. *)
Fixpoint join (sep : pystr) (parts : list pystr) : pystr :=
  match parts with
  | [] => []
  | [p] => p
  | p :: rest => p ++ sep ++ join sep rest
  end.

(** [int.__repr__]: decimal digits, with a minus sign below zero. *)
Definition int_repr (n : Z) : pystr :=
  lit (NilZero.string_of_int (Z.to_int n)).

(** One lower-case hexadecimal digit, and ['{0:04x}'.format(n)]. *)
Definition hex_digit (d : N) : N :=
  if (d <? 10)%N then (48 + d)%N else (87 + d)%N.

Definition hex4 (n : N) : pystr :=
  [ hex_digit (N.land (N.shiftr n 12) 15);
    hex_digit (N.land (N.shiftr n 8) 15);
    hex_digit (N.land (N.shiftr n 4) 15);
    hex_digit (N.land n 15) ].

(** ['%0<w>d' % n] for the non-negative fields of dates and times. *)
Definition zero_pad (w : nat) (digits : pystr) : pystr :=
  repeat 48%N (w - length digits) ++ digits.

Definition fmt_d (w : nat) (n : N) : pystr :=
  zero_pad w (int_repr (Z.of_N n)).

(** ** Cell values *)

(** [datetime.date], [datetime.time] (naive, as the reader returns them)
    and [datetime.timedelta]. *)
Record pydate := { year : N; month : N; day : N }.
Record pytime := { hour : N; minute : N; second : N; microsecond : N }.

(** A finite [float] is the dyadic rational [mantissa * 2 ^ exponent];
    a number too large for a float reads as an infinity.  The text of a
    numeric cell is parsed by [int] unless it has a [.], [e] or [E], so
    no cell reads as NaN. *)
Inductive float_value :=
| FFinite (mantissa exponent : Z)
| FInf (negative : bool).

(** A [float] cell: its numeric value, which decides [==] and so the key
    it is in a dict, and the text [float.__repr__] gives for it, which is
    what gets printed. *)
Record pyfloat := { float_val : float_value; float_repr : pystr }.

(** What [cell.value] can be: empty, boolean, number, text, date/time,
    duration. *)
Inductive value :=
| VNone
| VBool (b : bool)
| VInt (n : Z)
| VFloat (f : pyfloat)
| VStr (s : pystr)
| VDate (d : pydate)
| VTime (t : pytime)
| VDateTime (d : pydate) (t : pytime)
| VTimedelta (days seconds microseconds : Z).

(** [type(v).__name__]. *)
Definition class_name (v : value) : pystr :=
  match v with
  | VNone => lit "NoneType"
  | VBool _ => lit "bool"
  | VInt _ => lit "int"
  | VFloat _ => lit "float"
  | VStr _ => lit "str"
  | VDate _ => lit "date"
  | VTime _ => lit "time"
  | VDateTime _ _ => lit "datetime"
  | VTimedelta _ _ _ => lit "timedelta"
  end.

(** [hasattr(v, 'isoformat')]: the three date/time classes have the
    method, nothing else a cell holds does. *)
Definition hasattr_isoformat (v : value) : bool :=
  match v with
  | VDate _ | VTime _ | VDateTime _ _ => true
  | _ => false
  end.

Definition date_isoformat (d : pydate) : pystr :=
  fmt_d 4 (year d) ++ lit "-" ++ fmt_d 2 (month d) ++ lit "-" ++ fmt_d 2 (day d).

Definition time_isoformat (t : pytime) : pystr :=
  fmt_d 2 (hour t) ++ lit ":" ++ fmt_d 2 (minute t) ++ lit ":" ++ fmt_d 2 (second t)
  ++ (if (microsecond t =? 0)%N then [] else lit "." ++ fmt_d 6 (microsecond t)).

(** [v.isoformat()] for the classes that have the method.  On any other
    value the attribute lookup would fail; the script asks [hasattr]
    first, so the last branch is never taken. *)
Definition isoformat (v : value) : pystr :=
  match v with
  | VDate d => date_isoformat d
  | VTime t => time_isoformat t
  | VDateTime d t => date_isoformat d ++ lit "T" ++ time_isoformat t
  | _ => []
  end.

(** ** Equality of keys *)

(** [bool], [int] and [float] compare by numeric value: [True == 1 == 1.0]. *)
Definition numeric (v : value) : option float_value :=
  match v with
  | VBool b => Some (FFinite (if b then 1 else 0) 0)
  | VInt n => Some (FFinite n 0)
  | VFloat f => Some (float_val f)
  | _ => None
  end.

Definition float_value_eqb (a b : float_value) : bool :=
  match a, b with
  | FFinite m1 e1, FFinite m2 e2 =>
      if e2 <=? e1 then m1 * 2 ^ (e1 - e2) =? m2 else m1 =? m2 * 2 ^ (e2 - e1)
  | FInf s1, FInf s2 => Bool.eqb s1 s2
  | _, _ => false
  end.

Definition pydate_eqb (a b : pydate) : bool :=
  (year a =? year b)%N && (month a =? month b)%N && (day a =? day b)%N.

Definition pytime_eqb (a b : pytime) : bool :=
  (hour a =? hour b)%N && (minute a =? minute b)%N
  && (second a =? second b)%N && (microsecond a =? microsecond b)%N.

Definition timedelta_total (d s us : Z) : Z := (d * 86400 + s) * 1000000 + us.

(** [a == b] on cell values, the test a dict applies to its keys. *)
Definition py_eq (a b : value) : bool :=
  match numeric a, numeric b with
  | Some x, Some y => float_value_eqb x y
  | Some _, None | None, Some _ => false
  | None, None =>
      match a, b with
      | VNone, VNone => true
      | VStr s, VStr t => pystr_eqb s t
      | VDate d, VDate d' => pydate_eqb d d'
      | VTime t, VTime t' => pytime_eqb t t'
      | VDateTime d t, VDateTime d' t' => pydate_eqb d d' && pytime_eqb t t'
      | VTimedelta d s u, VTimedelta d' s' u' =>
          timedelta_total d s u =? timedelta_total d' s' u'
      | _, _ => false
      end
  end.

(** ** [zip] and [dict] *)

(** [zip(xs, ys)] stops at the end of the shorter argument. *)
Fixpoint zip (xs ys : list value) : list (value * value) :=
  match xs, ys with
  | x :: xs', y :: ys' => (x, y) :: zip xs' ys'
  | _, _ => []
  end.

(** A dict keeps its entries in insertion order. *)
Definition dict := list (value * value).

(** [d[k] = v]: the entry whose key equals [k] gets the new value and
    keeps its key and its place; a new key goes to the end. *)
Fixpoint dict_setitem (d : dict) (k v : value) : dict :=
  match d with
  | [] => [(k, v)]
  | (k', v') :: rest =>
      if py_eq k' k then (k', v) :: rest else (k', v') :: dict_setitem rest k v
  end.

(** [d.get(k)]. *)
Fixpoint dict_get (d : dict) (k : value) : option value :=
  match d with
  | [] => None
  | (k', v') :: rest => if py_eq k' k then Some v' else dict_get rest k
  end.

(** [dict(pairs)] inserts the pairs from left to right. *)
Definition dict_of (pairs : list (value * value)) : dict :=
  fold_left (fun d kv => dict_setitem d (fst kv) (snd kv)) pairs [].

(** ** Exceptions *)

(** The classes of the exceptions the script can meet: the failures of
    opening the workbook, [TypeError] from the JSON encoder,
    [RuntimeError] from a dict iterator, and [KeyboardInterrupt], which
    [except Exception] lets through. *)
Inductive exn_class :=
| FileNotFoundError
| PermissionError
| InvalidFileException
| BadZipFile
| TypeError
| RuntimeError
| KeyboardInterrupt.

(** [issubclass(c, Exception)]: [KeyboardInterrupt] derives from
    [BaseException] only. *)
Definition is_Exception (c : exn_class) : bool :=
  match c with
  | KeyboardInterrupt => false
  | _ => true
  end.

(** A raised exception: its class and [str(e)]. *)
Record exn := { exn_type : exn_class; exn_str : pystr }.

(** A call returns a value or raises. *)
Inductive result (A : Type) :=
| Ok (a : A)
| Raise (e : exn).
Arguments Ok {A} a.
Arguments Raise {A} e.

Definition rbind {A B} (r : result A) (k : A -> result B) : result B :=
  match r with
  | Ok a => k a
  | Raise e => Raise e
  end.

(** ** [json.dumps(obj, indent=2)] *)

(** With an indent the encoder is the chunk generator of [json.encoder]:
    [ensure_ascii] is on, the item separator is [","], the key separator
    [": "], and every level is indented by two spaces. *)

Definition QUOTE : N := 34.
Definition BACKSLASH : N := 92.

(** The replacement of one code point in [encode_basestring_ascii]:
    the two-character escapes, printable ASCII as it is, [\uXXXX] below
    [0x10000] and a surrogate pair above. *)
Definition escape_char (c : N) : pystr :=
  if (c =? QUOTE)%N then [BACKSLASH; QUOTE]
  else if (c =? BACKSLASH)%N then [BACKSLASH; BACKSLASH]
  else if (c =? 8)%N then BACKSLASH :: lit "b"
  else if (c =? 12)%N then BACKSLASH :: lit "f"
  else if (c =? 10)%N then BACKSLASH :: lit "n"
  else if (c =? 13)%N then BACKSLASH :: lit "r"
  else if (c =? 9)%N then BACKSLASH :: lit "t"
  else if ((32 <=? c) && (c <=? 126))%N then [c]
  else if (c <? 65536)%N then BACKSLASH :: lit "u" ++ hex4 c
  else
    let n := (c - 65536)%N in
    let s1 := N.lor 55296 (N.land (N.shiftr n 10) 1023) in
    let s2 := N.lor 56320 (N.land n 1023) in
    (BACKSLASH :: lit "u" ++ hex4 s1) ++ (BACKSLASH :: lit "u" ++ hex4 s2).

Definition encode_basestring_ascii (s : pystr) : pystr :=
  [QUOTE] ++ flat_map escape_char s ++ [QUOTE].

(** [floatstr]: the infinities have JSON-style names, any other float
    prints as its [repr]. *)
Definition floatstr (f : pyfloat) : pystr :=
  match float_val f with
  | FInf false => lit "Infinity"
  | FInf true => lit "-Infinity"
  | FFinite _ _ => float_repr f
  end.

(** The value branches shared by the list and the dict generator:
    [str], [None], [True], [False], [int], [float]. *)
Definition encode_scalar (v : value) : option pystr :=
  match v with
  | VStr s => Some (encode_basestring_ascii s)
  | VNone => Some (lit "null")
  | VBool true => Some (lit "true")
  | VBool false => Some (lit "false")
  | VInt n => Some (int_repr n)
  | VFloat f => Some (floatstr f)
  | _ => None
  end.

(** [JSONEncoder.default(o)], reached for every other value. *)
Definition default_error (o : value) : exn :=
  {| exn_type := TypeError;
     exn_str := lit "Object of type " ++ class_name o
                ++ lit " is not JSON serializable" |}.

Definition encode_value (v : value) : result pystr :=
  match encode_scalar v with
  | Some t => Ok t
  | None => Raise (default_error v)
  end.

(** The key branches of the dict generator: a [str] key stays, [float],
    [True], [False], [None] and [int] keys become their text, any other
    key is refused ([skipkeys] is off). *)
Definition key_text (k : value) : result pystr :=
  match k with
  | VStr s => Ok s
  | VFloat f => Ok (floatstr f)
  | VBool true => Ok (lit "true")
  | VBool false => Ok (lit "false")
  | VNone => Ok (lit "null")
  | VInt n => Ok (int_repr n)
  | _ => Raise {| exn_type := TypeError;
                  exn_str := lit "keys must be str, int, float, bool or None, not "
                             ++ class_name k |}
  end.

Definition indent_unit : pystr := lit "  ".
Definition item_separator : pystr := lit ",".
Definition key_separator : pystr := lit ": ".

Definition newline_indent (level : nat) : pystr :=
  NL ++ concat (repeat indent_unit level).

(** The loop of [_iterencode_list]: [buf] is ["[" + newline_indent] for
    the first item and the separator for the later ones. *)
Fixpoint iterencode_list_items (separator buf : pystr) (lst : list value)
  : result (list pystr) :=
  match lst with
  | [] => Ok []
  | v :: rest =>
      rbind (encode_value v) (fun t =>
      rbind (iterencode_list_items separator separator rest) (fun chunks =>
      Ok ((buf ++ t) :: chunks)))
  end.

Definition iterencode_list (lst : list value) (level : nat) : result (list pystr) :=
  match lst with
  | [] => Ok [lit "[]"]
  | _ =>
      let separator := item_separator ++ newline_indent (S level) in
      rbind (iterencode_list_items separator (lit "[" ++ newline_indent (S level)) lst)
        (fun chunks => Ok (chunks ++ [newline_indent level; lit "]"]))
  end.

(** The loop of [_iterencode_dict]: the key is checked before the value
    is encoded; every item but the first is preceded by the separator. *)
Fixpoint iterencode_dict_items (separator : pystr) (first : bool) (items : dict)
  : result (list pystr) :=
  match items with
  | [] => Ok []
  | (k, v) :: rest =>
      rbind (key_text k) (fun key =>
      rbind (encode_value v) (fun t =>
      rbind (iterencode_dict_items separator false rest) (fun chunks =>
      Ok ((if first then [] else [separator])
          ++ [encode_basestring_ascii key; key_separator; t] ++ chunks))))
  end.

Definition iterencode_dict (dct : dict) (level : nat) : result (list pystr) :=
  match dct with
  | [] => Ok [lit "{}"]
  | _ =>
      let separator := item_separator ++ newline_indent (S level) in
      rbind (iterencode_dict_items separator true dct) (fun chunks =>
      Ok ([lit "{"; newline_indent (S level)] ++ chunks
          ++ [newline_indent level; lit "}"]))
  end.

(** What the script hands to [json.dumps]: the header list or the sample
    dict. *)
Inductive pyobj :=
| OList (l : list value)
| ODict (d : dict).

(** [json.dumps(o, indent=2)]: the chunks are joined only once the
    generator is exhausted, so a failure leaves no text behind. *)
Definition json_dumps (o : pyobj) : result pystr :=
  rbind (match o with
         | OList l => iterencode_list l 0
         | ODict d => iterencode_dict d 0
         end)
        (fun chunks => Ok (concat chunks)).


(** ** The workbook and the file system *)

(** The active sheet as the script sees it: [sheet.max_row],
    [sheet.max_column], both at least 1 even on an empty sheet, and the
    value of the cell at a row and a column (counted from 1), [None]
    where the sheet has no cell. *)
Record worksheet := {
  max_row : Z;
  max_column : positive;
  cell_value : Z -> Z -> value
}.

(** [[cell.value for cell in sheet[i]]]: [sheet[i]] is the tuple of the
    cells of row [i] in the columns 1 to [max_column], whatever the row
    holds, so every row reads as wide as the sheet. *)
Definition row_values (sheet : worksheet) (i : Z) : list value :=
  map (fun j => cell_value sheet i (Z.of_nat j))
      (seq 1 (Pos.to_nat (max_column sheet))).

Record workbook := { active : worksheet }.

(** What can be in the way of opening a file that is there. *)
Inductive open_error :=
| PermissionDenied
| UnsupportedFormat
| CorruptFile.

(** What is at a path: nothing, a file the reader cannot open, with the
    message of its exception, or a workbook. *)
Inductive file_state :=
| Missing
| Unopenable (why : open_error) (message : pystr)
| Holds (wb : workbook).

Definition filesystem := pystr -> file_state.

Definition open_error_class (why : open_error) : exn_class :=
  match why with
  | PermissionDenied => PermissionError
  | UnsupportedFormat => InvalidFileException
  | CorruptFile => BadZipFile
  end.

(** [repr] of a path made of plain characters. *)
Definition path_repr (path : pystr) : pystr := lit "'" ++ path ++ lit "'".

(** [openpyxl.load_workbook(path)]. *)
Definition load_workbook (fs : filesystem) (path : pystr) : result workbook :=
  match fs path with
  | Missing =>
      Raise {| exn_type := FileNotFoundError;
               exn_str := lit "[Errno 2] No such file or directory: "
                          ++ path_repr path |}
  | Unopenable why message =>
      Raise {| exn_type := open_error_class why; exn_str := message |}
  | Holds wb => Ok wb
  end.

(** ** Statements: standard output and exceptions *)

(** A statement runs on the list of texts handed to [print] so far and
    either yields a value or raises; what was printed stays printed. *)
Definition io (A : Type) := list pystr -> result A * list pystr.

Definition ret {A} (a : A) : io A := fun out => (Ok a, out).

Definition bind {A B} (m : io A) (k : A -> io B) : io B :=
  fun out =>
    match m out with
    | (Ok a, out') => k a out'
    | (Raise e, out') => (Raise e, out')
    end.

(** A call that may raise and prints nothing. *)
Definition call {A} (r : result A) : io A := fun out => (r, out).

Definition print (s : pystr) : io unit := fun out => (Ok tt, out ++ [s]).

(** [try: body except Exception as e: handler(e)]. *)
Definition try_except_Exception (body : io unit) (handler : exn -> io unit) : io unit :=
  fun out =>
    match body out with
    | (Ok tt, out') => (Ok tt, out')
    | (Raise e, out') =>
        if is_Exception (exn_type e) then handler e out' else (Raise e, out')
    end.

Declare Scope io_scope.
Delimit Scope io_scope with io.
Notation "x <- m ;; k" := (bind m (fun x => k))
  (at level 61, m at next level, right associativity) : io_scope.
Notation "m ;; k" := (bind m (fun _ => k))
  (at level 61, right associativity) : io_scope.

(** ** The script *)

(** [for k, v in sample.items(): if hasattr(v, 'isoformat'):
    sample[k] = v.isoformat()].  The view iterates over the dict as it is
    at each step: [next] first checks that the dict still has the size it
    had when the loop began, then yields the entry at its position. *)
Definition convert_entry (sample : dict) (k v : value) : dict :=
  if hasattr_isoformat v then dict_setitem sample k (VStr (isoformat v))
  else sample.

Fixpoint items_loop (remaining pos size : nat) (sample : dict) : result dict :=
  if (length sample =? size)%nat then
    match remaining with
    | O => Ok sample
    | S remaining' =>
        match nth_error sample pos with
        | Some (k, v) =>
            items_loop remaining' (S pos) size (convert_entry sample k v)
        | None => Ok sample
        end
    end
  else
    Raise {| exn_type := RuntimeError;
             exn_str := lit "dictionary changed size during iteration" |}.

Definition convert_datetimes (sample : dict) : result dict :=
  items_loop (length sample) 0 (length sample) sample.

(** [headers = [cell.value for cell in sheet[1]]]. *)
Definition headers (sheet : worksheet) : list value := row_values sheet 1.

(** [row_data] is [[]] unless [sheet.max_row >= 2], and then row 2. *)
Definition row_data (sheet : worksheet) : list value :=
  if max_row sheet >=? 2 then row_values sheet 2 else [].

(** [sample = dict(zip(headers, row_data))], before the loop. *)
Definition sample (sheet : worksheet) : dict :=
  dict_of (zip (headers sheet) (row_data sheet)).

Definition template_path : pystr := lit "prueba2.xlsx".

Local Open Scope io_scope.

(** The body of the [try]. *)
Definition inspect_body (fs : filesystem) : io unit :=
  wb <- call (load_workbook fs template_path) ;;
  let sheet := active wb in
  print (lit "HEADERS:") ;;
  text <- call (json_dumps (OList (headers sheet))) ;;
  print text ;;
  print (NL ++ lit "SAMPLE ROW:") ;;
  sample <- call (convert_datetimes (sample sheet)) ;;
  text <- call (json_dumps (ODict sample)) ;;
  print text.

Definition inspect (fs : filesystem) : io unit :=
  try_except_Exception (inspect_body fs)
    (fun e => print (lit "Error: " ++ exn_str e)).

Local Close Scope io_scope.

(** The process: what reached standard output, one text per [print]
    call, and the exception that left the module, if any. *)
Record outcome := { printed : list pystr; uncaught : option exn }.

Definition run (fs : filesystem) : outcome :=
  match inspect fs [] with
  | (Ok tt, out) => {| printed := out; uncaught := None |}
  | (Raise e, out) => {| printed := out; uncaught := Some e |}
  end.

(** [print] ends each text with a newline. *)
Definition stdout_text (o : outcome) : pystr :=
  concat (map (fun s => s ++ NL) (printed o)).

(** The interpreter exits with 0 at the end of the module and with 1
    after an uncaught exception, whose traceback goes to standard error. *)
Definition exit_status (o : outcome) : Z :=
  match uncaught o with
  | None => 0
  | Some _ => 1
  end.


(** ** The layout of the printed JSON, stated on its own *)

(** An indented array: ["[]"] when empty, else one item per line, each
    indented by two spaces, a comma after every item but the last. *)
Definition pretty_array (items : list pystr) : pystr :=
  match items with
  | [] => lit "[]"
  | _ => lit "[" ++ NL ++ lit "  " ++ join (lit "," ++ NL ++ lit "  ") items
         ++ NL ++ lit "]"
  end.

(** A member of an object: the quoted key, a colon and a space, the value. *)
Definition pretty_member (m : pystr * pystr) : pystr :=
  encode_basestring_ascii (fst m) ++ lit ": " ++ snd m.

Definition pretty_object (members : list (pystr * pystr)) : pystr :=
  match members with
  | [] => lit "{}"
  | _ => lit "{" ++ NL ++ lit "  "
         ++ join (lit "," ++ NL ++ lit "  ") (map pretty_member members)
         ++ NL ++ lit "}"
  end.

(** The JSON text of a serializable value and of a usable key. *)
Definition json_serializable (v : value) : bool :=
  match encode_scalar v with
  | Some _ => true
  | None => false
  end.

Definition scalar_text (v : value) : pystr :=
  match encode_scalar v with
  | Some t => t
  | None => []
  end.

Definition member_key (k : value) : pystr :=
  match key_text k with
  | Ok s => s
  | Raise _ => []
  end.

Definition member_of (kv : value * value) : pystr * pystr :=
  (member_key (fst kv), scalar_text (snd kv)).

(** The value the conversion loop leaves for [v]. *)
Definition converted (v : value) : value :=
  if hasattr_isoformat v then VStr (isoformat v) else v.

(** The first failure of the dict generator, if there is one. *)
Fixpoint dict_failure (d : dict) : option exn :=
  match d with
  | [] => None
  | (k, v) :: rest =>
      match key_text k with
      | Raise e => Some e
      | Ok _ => if json_serializable v then dict_failure rest
                else Some (default_error v)
      end
  end.

(** ** Notions used to state the properties of dicts *)

Definition keys (d : dict) : list value := map fst d.

(** No key equals a later one: the invariant of a dict. *)
Fixpoint distinct (ks : list value) : Prop :=
  match ks with
  | [] => True
  | k :: rest => (forall k', In k' rest -> py_eq k k' = false) /\ distinct rest
  end.

(** The value of the last pair whose key equals [k]. *)
Fixpoint lookup_last (pairs : list (value * value)) (k : value) : option value :=
  match pairs with
  | [] => None
  | (k', v') :: rest =>
      match lookup_last rest k with
      | Some v => Some v
      | None => if py_eq k' k then Some v' else None
      end
  end.

(** What the loop does to one entry. *)
Definition convert_pair (kv : value * value) : value * value :=
  (fst kv, converted (snd kv)).

(** ** Notions used to state the properties of a run *)

(** The line the handler prints, and the two label texts. *)
Definition error_line (e : exn) : pystr := lit "Error: " ++ exn_str e.
Definition HEADERS_label : pystr := lit "HEADERS:".
Definition SAMPLE_label : pystr := NL ++ lit "SAMPLE ROW:".

(** The sample dict as the conversion loop leaves it. *)
Definition sample_record (sheet : worksheet) : dict :=
  map convert_pair (sample sheet).

(** The body of the [try] reaches its end. *)
Definition completes (fs : filesystem) : Prop :=
  fst (inspect_body fs []) = Ok tt.

(** The number of line ends in a text. *)
Definition line_count (s : pystr) : nat :=
  length (filter (N.eqb 10) s).

(** How many positions [zip] pairs, and the pairs of those positions. *)
Definition paired (sheet : worksheet) : nat :=
  Nat.min (length (headers sheet)) (length (row_data sheet)).


(** Column [i] holds the header [k], and no later column of row 1 holds
    an equal one. *)
Definition last_occurrence (sheet : worksheet) (k : value) (i : nat) : Prop :=
  nth_error (headers sheet) i = Some k
  /\ forall j k', (i < j)%nat -> nth_error (headers sheet) j = Some k' ->
                  py_eq k' k = false.

(** The same, among the columns that [zip] pairs with a sample value. *)
Definition last_paired_occurrence (sheet : worksheet) (k : value) (i : nat) : Prop :=
  nth_error (headers sheet) i = Some k
  /\ forall j k', (i < j)%nat -> (j < paired sheet)%nat ->
                  nth_error (headers sheet) j = Some k' -> py_eq k' k = false.

(** The header [k] of column [i] is also in another column. *)
Definition duplicated (sheet : worksheet) (k : value) (i : nat) : Prop :=
  exists j k', j <> i /\ nth_error (headers sheet) j = Some k'
               /\ py_eq k' k = true.

(** The shapes standard output can have. *)
Definition complete_report (fs : filesystem) : Prop :=
  exists wb harr sobj,
    load_workbook fs template_path = Ok wb
    /\ json_dumps (OList (headers (active wb))) = Ok harr
    /\ json_dumps (ODict (sample_record (active wb))) = Ok sobj
    /\ printed (run fs) = [HEADERS_label; harr; SAMPLE_label; sobj].

Definition single_error_line (fs : filesystem) : Prop :=
  exists e, printed (run fs) = [error_line e].

Definition cut_after_headers_label (fs : filesystem) : Prop :=
  exists wb e,
    load_workbook fs template_path = Ok wb
    /\ json_dumps (OList (headers (active wb))) = Raise e
    /\ line_count (error_line e) = 0%nat
    /\ printed (run fs) = [HEADERS_label; error_line e].

Definition cut_after_sample_label (fs : filesystem) : Prop :=
  exists wb harr e,
    load_workbook fs template_path = Ok wb
    /\ json_dumps (OList (headers (active wb))) = Ok harr
    /\ json_dumps (ODict (sample_record (active wb))) = Raise e
    /\ line_count (error_line e) = 0%nat
    /\ printed (run fs) = [HEADERS_label; harr; SAMPLE_label; error_line e].

(** The full report or one error line, nothing in between. *)
Definition report_or_error_only (fs : filesystem) : Prop :=
  complete_report fs \/ single_error_line fs.

(** The body fails before its first [print]: the output is the one
    message of the handler, [Error: ] and the text of the exception,
    which has the lines that text has. *)
Definition error_message_only (fs : filesystem) : Prop :=
  exists e,
    inspect_body fs [] = (Raise e, [])
    /\ printed (run fs) = [error_line e]
    /\ stdout_text (run fs) = lit "Error: " ++ exn_str e ++ NL.

(** The run prints [{}] as its sample object. *)
Definition prints_empty_sample_object (fs : filesystem) : Prop :=
  exists harr,
    printed (run fs) = [HEADERS_label; harr; SAMPLE_label; lit "{}"].

(** ** Fixtures *)

(** A sheet given by its row count and the cells of its first two
    rows; it is as wide as the longer of the two, and a row reads as
    [None] past its last cell. *)
Definition sheet_of (rows : Z) (r1 r2 : list value) : worksheet :=
  {| max_row := rows;
     max_column := Pos.of_nat (Nat.max (length r1) (length r2));
     cell_value := fun i j =>
       nth (Z.to_nat (j - 1))
           (if i =? 1 then r1 else if i =? 2 then r2 else []) VNone |}.

(** A file system with one file of interest, at the script's path. *)
Definition template_is (st : file_state) : filesystem :=
  fun path => if pystr_eqb path template_path then st else Missing.

Definition template_holds (rows : Z) (r1 r2 : list value) : filesystem :=
  template_is (Holds {| active := sheet_of rows r1 r2 |}).

Definition a_date : value := VDate {| year := 2024; month := 1; day := 31 |}.

Definition hA : value := VStr (lit "A").
Definition hB : value := VStr (lit "B").
Definition hC : value := VStr (lit "C").

(** Headers [A, B, C] over the values [1, 2, 3]. *)
Definition abc_template : filesystem :=
  template_holds 2 [hA; hB; hC] [VInt 1; VInt 2; VInt 3].


(** The header [A] in columns 1 and 3, over the values 1, 2 and a date. *)
Definition repeated_header_sheet : worksheet :=
  sheet_of 2 [hA; hB; hA] [VInt 1; VInt 2; a_date].

(** A date among the headers of a sheet with one row. *)
Definition dated_header_template : filesystem :=
  template_holds 1 [hA; a_date] [].


(** A sheet with the header row only. *)
Definition header_only_template : filesystem :=
  template_holds 1 [hA; hB] [].

(** ** Notions used to state further properties of the script *)

(** The keys of [ks] that equal no key before them, [seen] being the
    keys met so far. *)
Fixpoint first_occurrences (seen ks : list value) : list value :=
  match ks with
  | [] => []
  | k :: rest =>
      if existsb (fun s => py_eq s k) seen then first_occurrences seen rest
      else k :: first_occurrences (seen ++ [k]) rest
  end.

(** Printable ASCII, and the code points a report is made of. *)
Definition printable (c : N) : bool := ((32 <=? c) && (c <=? 126))%N.

Definition report_char (c : N) : bool := printable c || (c =? 10)%N.

(** The [repr] text a float cell carries is printable ASCII, as the text
    of [float.__repr__] is. *)
Definition float_repr_printable (v : value) : bool :=
  match v with
  | VFloat f => forallb printable (float_repr f)
  | _ => true
  end.

(** The line ends inside an indented array or object of [n] items. *)
Definition block_line_ends (n : nat) : nat :=
  match n with
  | O => O
  | S _ => S n
  end.

Definition is_str (v : value) : bool :=
  match v with
  | VStr _ => true
  | _ => false
  end.

(** A sample value the report can show: one the encoder takes as it is
    or one the loop turns into text. *)
Definition showable (v : value) : bool :=
  json_serializable v || hasattr_isoformat v.

(** An accented header over a text with a line break in it. *)
Definition accent_sheet : worksheet :=
  sheet_of 2 [VStr [78; 250; 109]%N] [VStr [97; 10; 98]%N].

(** ** Checks of the runtime model *)

Example isoformat_datetime :
  isoformat (VDateTime {| year := 2024; month := 3; day := 7 |}
                       {| hour := 9; minute := 5; second := 0; microsecond := 0 |})
  = lit "2024-03-07T09:05:00".
Proof. reflexivity. Qed.

Example isoformat_time_us :
  isoformat (VTime {| hour := 23; minute := 59; second := 58; microsecond := 1200 |})
  = lit "23:59:58.001200".
Proof. reflexivity. Qed.

Example int_repr_neg : int_repr (-120) = lit "-120".
Proof. reflexivity. Qed.

Example int_repr_zero : int_repr 0 = lit "0".
Proof. reflexivity. Qed.

Example dumps_abc :
  json_dumps (OList [VStr (lit "A"); VInt 1; VNone; VBool true])
  = Ok (lit "[" ++ NL ++ lit "  " ++ [QUOTE] ++ lit "A" ++ [QUOTE] ++ lit "," ++ NL
        ++ lit "  1," ++ NL ++ lit "  null," ++ NL ++ lit "  true" ++ NL ++ lit "]").
Proof. reflexivity. Qed.

Example dumps_obj :
  json_dumps (ODict [(VStr (lit "A"), VInt 1); (VInt 7, VStr [233%N; 128512%N])])
  = Ok (lit "{" ++ NL ++ lit "  " ++ [QUOTE] ++ lit "A" ++ [QUOTE] ++ lit ": 1," ++ NL
        ++ lit "  " ++ [QUOTE] ++ lit "7" ++ [QUOTE] ++ lit ": " ++ [QUOTE]
        ++ [BACKSLASH] ++ lit "u00e9" ++ [BACKSLASH] ++ lit "ud83d"
        ++ [BACKSLASH] ++ lit "ude00" ++ [QUOTE] ++ NL ++ lit "}").
Proof. reflexivity. Qed.

(** [True], [1] and [2.0 / 2] are one key; the first key stays, the last
    value wins. *)
Example dict_numeric_keys :
  dict_of [(VInt 1, hA); (VStr (lit "x"), hB);
           (VBool true, hC);
           (VFloat {| float_val := FFinite 1 0; float_repr := lit "1.0" |}, VNone)]
  = [(VInt 1, VNone); (VStr (lit "x"), hB)].
Proof. reflexivity. Qed.

Example float_int_equal :
  py_eq (VFloat {| float_val := FFinite 3 2; float_repr := lit "12.0" |}) (VInt 12)
  = true.
Proof. reflexivity. Qed.

Example escape_controls :
  encode_basestring_ascii [9%N; 7%N; 127%N; QUOTE]
  = [QUOTE] ++ [BACKSLASH] ++ lit "t" ++ [BACKSLASH] ++ lit "u0007"
    ++ [BACKSLASH] ++ lit "u007f" ++ [BACKSLASH; QUOTE] ++ [QUOTE].
Proof. reflexivity. Qed.

(** A duration in row 2 has no [isoformat] and no JSON form: the run
    stops after the [SAMPLE ROW:] label. *)
Example run_timedelta_sample :
  printed (run (template_holds 2 [hA] [VTimedelta 0 90 0]))
  = [lit "HEADERS:";
     lit "[" ++ NL ++ lit "  " ++ [QUOTE] ++ lit "A" ++ [QUOTE] ++ NL ++ lit "]";
     NL ++ lit "SAMPLE ROW:";
     lit "Error: Object of type timedelta is not JSON serializable"].
Proof. reflexivity. Qed.

Example run_corrupt_file :
  run (template_is (Unopenable CorruptFile (lit "File is not a zip file")))
  = {| printed := [lit "Error: File is not a zip file"]; uncaught := None |}.
Proof. reflexivity. Qed.

(** ** Lemmas on the encoder *)

Lemma join_cons sep p q rest :
  join sep (p :: q :: rest) = p ++ sep ++ join sep (q :: rest).
Proof. reflexivity. Qed.

Lemma encode_value_ok v :
  json_serializable v = true -> encode_value v = Ok (scalar_text v).
Proof.
  unfold json_serializable, encode_value, scalar_text.
  destruct (encode_scalar v); [reflexivity | discriminate].
Qed.

Lemma encode_value_raise v :
  json_serializable v = false -> encode_value v = Raise (default_error v).
Proof.
  unfold json_serializable, encode_value.
  destruct (encode_scalar v); [discriminate | reflexivity].
Qed.

Lemma list_items_ok sep : forall lst buf,
  forallb json_serializable lst = true ->
  lst <> [] ->
  exists chunks,
    iterencode_list_items sep buf lst = Ok chunks
    /\ concat chunks = buf ++ join sep (map scalar_text lst).
Proof.
  induction lst as [|v rest IH]; intros buf Hall Hne; [congruence|].
  simpl in Hall. apply andb_true_iff in Hall as [Hv Hrest].
  simpl iterencode_list_items. rewrite (encode_value_ok v Hv). simpl rbind.
  destruct rest as [|w rest'].
  - simpl. eexists; split; [reflexivity|]. simpl. now rewrite app_nil_r.
  - destruct (IH sep Hrest) as [chunks [Hc Hcat]]; [discriminate|].
    rewrite Hc. simpl rbind. eexists; split; [reflexivity|].
    cbn [concat]. rewrite Hcat. cbn [map]. rewrite join_cons.
    now rewrite <- app_assoc.
Qed.

Lemma list_items_raise sep : forall lst buf v,
  find (fun x => negb (json_serializable x)) lst = Some v ->
  iterencode_list_items sep buf lst = Raise (default_error v).
Proof.
  induction lst as [|x rest IH]; intros buf v Hf; [discriminate|].
  simpl in Hf. simpl iterencode_list_items.
  destruct (json_serializable x) eqn:Hx; simpl in Hf.
  - rewrite (encode_value_ok x Hx). simpl rbind.
    now rewrite (IH sep v Hf).
  - injection Hf as <-. now rewrite (encode_value_raise x Hx).
Qed.

Lemma find_none_forallb (l : list value) :
  find (fun x => negb (json_serializable x)) l = None ->
  forallb json_serializable l = true.
Proof.
  induction l as [|x rest IH]; simpl; [reflexivity|].
  destruct (json_serializable x); simpl; [exact IH | discriminate].
Qed.

(** [json.dumps] of a list: the first value the encoder has no branch
    for raises, otherwise the text is the indented array of the items. *)
Lemma json_dumps_list (l : list value) :
  json_dumps (OList l)
  = match find (fun x => negb (json_serializable x)) l with
    | Some v => Raise (default_error v)
    | None => Ok (pretty_array (map scalar_text l))
    end.
Proof.
  destruct (find _ l) as [v|] eqn:Hf.
  - unfold json_dumps, iterencode_list. destruct l as [|x rest]; [discriminate|].
    now rewrite (list_items_raise _ _ _ _ Hf).
  - destruct l as [|x rest]; [reflexivity|].
    unfold json_dumps, iterencode_list.
    destruct (list_items_ok (item_separator ++ newline_indent 1) (x :: rest)
                (lit "[" ++ newline_indent 1) (find_none_forallb _ Hf))
      as [chunks [Hc Hcat]]; [discriminate|].
    rewrite Hc. simpl rbind. f_equal.
    rewrite concat_app, Hcat. unfold pretty_array. cbn [map].
    change (newline_indent 1) with (NL ++ lit "  ").
    change item_separator with (lit ",").
    change (concat [newline_indent 0; lit "]"]) with (NL ++ lit "]").
    now rewrite <- !app_assoc.
Qed.

Lemma key_text_ok k s : key_text k = Ok s -> member_key k = s.
Proof. unfold member_key. now intros ->. Qed.

Lemma concat_member (first : bool) (sep a b c : pystr) (chunks : list pystr) :
  concat ((if first then [] else [sep]) ++ [a; b; c] ++ chunks)
  = (if first then [] else sep) ++ (a ++ b ++ c) ++ concat chunks.
Proof.
  destruct first; simpl; rewrite <- ?app_assoc; reflexivity.
Qed.

Lemma iterencode_dict_items_cons sep first k v rest :
  iterencode_dict_items sep first ((k, v) :: rest)
  = rbind (key_text k) (fun key =>
    rbind (encode_value v) (fun t =>
    rbind (iterencode_dict_items sep false rest) (fun chunks =>
    Ok ((if first then [] else [sep])
        ++ [encode_basestring_ascii key; key_separator; t] ++ chunks)))).
Proof. reflexivity. Qed.

Lemma dict_items_ok sep : forall d first,
  dict_failure d = None ->
  d <> [] ->
  exists chunks,
    iterencode_dict_items sep first d = Ok chunks
    /\ concat chunks
       = (if first then [] else sep) ++ join sep (map pretty_member (map member_of d)).
Proof.
  induction d as [|[k v] rest IH]; intros first Hnone Hne; [congruence|].
  simpl in Hnone. rewrite iterencode_dict_items_cons.
  destruct (key_text k) as [s|e] eqn:Hk; [|discriminate].
  destruct (json_serializable v) eqn:Hv; [|discriminate].
  rewrite (encode_value_ok v Hv). cbn [rbind].
  assert (Hm : pretty_member (member_of (k, v))
               = encode_basestring_ascii s ++ key_separator ++ scalar_text v).
  { unfold pretty_member, member_of. simpl fst. simpl snd.
    now rewrite (key_text_ok _ _ Hk). }
  destruct rest as [|kv rest'].
  - change (iterencode_dict_items sep false []) with (@Ok (list pystr) []).
    cbn [rbind]. eexists; split; [reflexivity|].
    rewrite concat_member. cbn [map join concat]. rewrite Hm.
    now rewrite app_nil_r.
  - destruct (IH false Hnone) as [chunks [Hc Hcat]]; [discriminate|].
    rewrite Hc. cbn [rbind]. eexists; split; [reflexivity|].
    rewrite concat_member, Hcat.
    change (map pretty_member (map member_of ((k, v) :: kv :: rest')))
      with (pretty_member (member_of (k, v))
            :: pretty_member (member_of kv)
            :: map pretty_member (map member_of rest')).
    rewrite join_cons, Hm.
    change (map pretty_member (map member_of (kv :: rest')))
      with (pretty_member (member_of kv) :: map pretty_member (map member_of rest')).
    now rewrite <- !app_assoc.
Qed.

Lemma dict_items_raise sep : forall d first e,
  dict_failure d = Some e ->
  iterencode_dict_items sep first d = Raise e.
Proof.
  induction d as [|[k v] rest IH]; intros first e Hf; [discriminate|].
  simpl in Hf. simpl iterencode_dict_items.
  destruct (key_text k) as [s|e'] eqn:Hk.
  - simpl rbind. destruct (json_serializable v) eqn:Hv.
    + rewrite (encode_value_ok v Hv). simpl rbind. now rewrite (IH false e Hf).
    + injection Hf as <-. now rewrite (encode_value_raise v Hv).
  - now injection Hf as <-.
Qed.

(** [json.dumps] of a dict: the first bad key or value raises, otherwise
    the text is the indented object of the members in insertion order. *)
Lemma json_dumps_dict (d : dict) :
  json_dumps (ODict d)
  = match dict_failure d with
    | Some e => Raise e
    | None => Ok (pretty_object (map member_of d))
    end.
Proof.
  destruct (dict_failure d) as [e|] eqn:Hf.
  - unfold json_dumps, iterencode_dict. destruct d as [|kv rest]; [discriminate|].
    now rewrite (dict_items_raise _ _ _ _ Hf).
  - destruct d as [|kv rest]; [reflexivity|].
    unfold json_dumps, iterencode_dict.
    destruct (dict_items_ok (item_separator ++ newline_indent 1) (kv :: rest)
                true Hf) as [chunks [Hc Hcat]]; [discriminate|].
    rewrite Hc. simpl rbind. f_equal.
    rewrite !concat_app, Hcat. reflexivity.
Qed.

(** ** Key equality is an equivalence *)

(** Two finite floats are equal exactly when they agree once both are
    scaled to a common exponent at or below their own. *)
Lemma finite_eqb_scaled m1 e1 m2 e2 E :
  E <= e1 -> E <= e2 ->
  float_value_eqb (FFinite m1 e1) (FFinite m2 e2) = true
  <-> m1 * 2 ^ (e1 - E) = m2 * 2 ^ (e2 - E).
Proof.
  intros H1 H2. unfold float_value_eqb.
  destruct (e2 <=? e1) eqn:Hle.
  - apply Z.leb_le in Hle. rewrite Z.eqb_eq.
    replace (e1 - E) with ((e1 - e2) + (e2 - E)) by lia.
    rewrite Z.pow_add_r by lia. rewrite Z.mul_assoc.
    assert (Hp : 0 < 2 ^ (e2 - E)) by (apply Z.pow_pos_nonneg; lia).
    split; intros H.
    + now rewrite H.
    + apply Z.mul_cancel_r in H; [exact H | lia].
  - apply Z.leb_gt in Hle. rewrite Z.eqb_eq.
    replace (e2 - E) with ((e2 - e1) + (e1 - E)) by lia.
    rewrite Z.pow_add_r by lia. rewrite Z.mul_assoc.
    assert (Hp : 0 < 2 ^ (e1 - E)) by (apply Z.pow_pos_nonneg; lia).
    split; intros H.
    + now rewrite H.
    + apply Z.mul_cancel_r in H; [exact H | lia].
Qed.

Lemma float_value_eqb_refl a : float_value_eqb a a = true.
Proof.
  destruct a as [m e|s].
  - apply (finite_eqb_scaled m e m e e); lia.
  - apply eqb_reflx.
Qed.

Lemma float_value_eqb_sym a b :
  float_value_eqb a b = true -> float_value_eqb b a = true.
Proof.
  destruct a as [m1 e1|s1], b as [m2 e2|s2]; try discriminate.
  - intros H.
    apply (finite_eqb_scaled m1 e1 m2 e2 (Z.min e1 e2)) in H; [|lia|lia].
    apply (finite_eqb_scaled m2 e2 m1 e1 (Z.min e1 e2)); [lia|lia|].
    now symmetry.
  - simpl. intros H. apply eqb_prop in H. subst. apply eqb_reflx.
Qed.

Lemma float_value_eqb_trans a b c :
  float_value_eqb a b = true -> float_value_eqb b c = true ->
  float_value_eqb a c = true.
Proof.
  destruct a as [m1 e1|s1], b as [m2 e2|s2], c as [m3 e3|s3]; try discriminate.
  - intros H12 H23.
    set (E := Z.min e1 (Z.min e2 e3)).
    apply (finite_eqb_scaled m1 e1 m2 e2 E) in H12; [|lia|lia].
    apply (finite_eqb_scaled m2 e2 m3 e3 E) in H23; [|lia|lia].
    apply (finite_eqb_scaled m1 e1 m3 e3 E); [lia|lia|].
    now rewrite H12.
  - simpl. intros H12 H23. apply eqb_prop in H12, H23. subst. apply eqb_reflx.
Qed.

Lemma pystr_eqb_eq a b : pystr_eqb a b = true <-> a = b.
Proof.
  unfold pystr_eqb. destruct (list_eq_dec N.eq_dec a b); split; congruence.
Qed.

Lemma pydate_eqb_eq a b : pydate_eqb a b = true <-> a = b.
Proof.
  unfold pydate_eqb. destruct a, b; simpl.
  rewrite !andb_true_iff, !N.eqb_eq. split.
  - intros [[-> ->] ->]. reflexivity.
  - intros H. injection H as -> -> ->. auto.
Qed.

Lemma pytime_eqb_eq a b : pytime_eqb a b = true <-> a = b.
Proof.
  unfold pytime_eqb. destruct a, b; simpl.
  rewrite !andb_true_iff, !N.eqb_eq. split.
  - intros [[[-> ->] ->] ->]. reflexivity.
  - intros H. injection H as -> -> -> ->. auto.
Qed.

Lemma py_eq_refl a : py_eq a a = true.
Proof.
  destruct a; cbn [py_eq numeric];
    try apply float_value_eqb_refl;
    try (apply pystr_eqb_eq; reflexivity);
    try (apply pydate_eqb_eq; reflexivity);
    try (apply pytime_eqb_eq; reflexivity);
    try reflexivity.
  - apply andb_true_iff. split;
      [apply pydate_eqb_eq | apply pytime_eqb_eq]; reflexivity.
  - apply Z.eqb_refl.
Qed.

Lemma py_eq_sym a b : py_eq a b = true -> py_eq b a = true.
Proof.
  destruct a, b; cbn [py_eq numeric]; try discriminate; try reflexivity;
    try apply float_value_eqb_sym.
  - rewrite !pystr_eqb_eq. congruence.
  - rewrite !pydate_eqb_eq. congruence.
  - rewrite !pytime_eqb_eq. congruence.
  - rewrite !andb_true_iff, !pydate_eqb_eq, !pytime_eqb_eq.
    intros [-> ->]. auto.
  - rewrite !Z.eqb_eq. congruence.
Qed.

Lemma py_eq_trans a b c :
  py_eq a b = true -> py_eq b c = true -> py_eq a c = true.
Proof.
  destruct a, b; cbn [py_eq numeric]; try discriminate;
    destruct c; cbn [py_eq numeric]; try discriminate; try reflexivity;
    try apply float_value_eqb_trans.
  - rewrite !pystr_eqb_eq. congruence.
  - rewrite !pydate_eqb_eq. congruence.
  - rewrite !pytime_eqb_eq. congruence.
  - rewrite !andb_true_iff, !pydate_eqb_eq, !pytime_eqb_eq.
    intros [-> ->] [-> ->]. auto.
  - rewrite !Z.eqb_eq. congruence.
Qed.

(** Equal keys agree on every comparison. *)
Lemma py_eq_compat a b c : py_eq a b = true -> py_eq a c = py_eq b c.
Proof.
  intros Hab. destruct (py_eq a c) eqn:Hac, (py_eq b c) eqn:Hbc; try reflexivity.
  - rewrite (py_eq_trans b a c (py_eq_sym _ _ Hab) Hac) in Hbc. discriminate.
  - rewrite (py_eq_trans a b c Hab Hbc) in Hac. discriminate.
Qed.

(** ** Lemmas on dicts *)

Lemma dict_get_setitem d k' v' k :
  dict_get (dict_setitem d k' v') k
  = if py_eq k' k then Some v' else dict_get d k.
Proof.
  induction d as [|[s x] rest IH]; simpl.
  - reflexivity.
  - destruct (py_eq s k') eqn:Hsk'; simpl.
    + rewrite (py_eq_compat s k' k Hsk'). now destruct (py_eq k' k).
    + rewrite IH. destruct (py_eq s k) eqn:Hsk; [|reflexivity].
      destruct (py_eq k' k) eqn:Hk'k; [|reflexivity].
      rewrite (py_eq_trans s k k' Hsk (py_eq_sym _ _ Hk'k)) in Hsk'.
      discriminate.
Qed.

Lemma setitem_absent d k v :
  (forall k', In k' (keys d) -> py_eq k' k = false) ->
  dict_setitem d k v = d ++ [(k, v)].
Proof.
  induction d as [|[s x] rest IH]; simpl; intros Habs; [reflexivity|].
  rewrite (Habs s (or_introl eq_refl)). f_equal. apply IH.
  intros k' Hin. apply Habs. now right.
Qed.

Lemma setitem_present done k v x todo :
  (forall k', In k' (keys done) -> py_eq k' k = false) ->
  dict_setitem (done ++ (k, v) :: todo) k x = done ++ (k, x) :: todo.
Proof.
  induction done as [|[s y] rest IH]; simpl; intros Habs.
  - now rewrite py_eq_refl.
  - rewrite (Habs s (or_introl eq_refl)). f_equal. apply IH.
    intros k' Hin. apply Habs. now right.
Qed.

Lemma distinct_app_inv ks k rest :
  distinct (ks ++ k :: rest) ->
  (forall k', In k' ks -> py_eq k' k = false).
Proof.
  induction ks as [|s ks IH]; simpl; intros Hd k' Hin; [contradiction|].
  destruct Hd as [Hs Hrest]. destruct Hin as [<-|Hin].
  - apply Hs. apply in_or_app. right. now left.
  - now apply IH.
Qed.

Lemma distinct_snoc ks k :
  distinct ks -> (forall k', In k' ks -> py_eq k' k = false) ->
  distinct (ks ++ [k]).
Proof.
  induction ks as [|s ks IH]; simpl; intros Hd Habs.
  - split; [intros ? []|exact I].
  - destruct Hd as [Hs Hrest]. split.
    + intros k' Hin. apply in_app_or in Hin as [Hin|[<-|[]]].
      * now apply Hs.
      * apply Habs. now left.
    + apply IH; [exact Hrest|]. intros k' Hin. apply Habs. now right.
Qed.

(** An assignment keeps the keys or appends one that is new. *)
Lemma setitem_keys d k v :
  keys (dict_setitem d k v) = keys d
  \/ (keys (dict_setitem d k v) = keys d ++ [k]
      /\ forall k', In k' (keys d) -> py_eq k' k = false).
Proof.
  induction d as [|[s x] rest IH]; simpl.
  - right. split; [reflexivity | intros ? []].
  - destruct (py_eq s k) eqn:Hs; simpl.
    + now left.
    + destruct IH as [IH|[IH Habs]].
      * left. now rewrite IH.
      * right. split; [now rewrite IH|].
        intros k' [<-|Hin]; [exact Hs | now apply Habs].
Qed.

Lemma setitem_distinct d k v :
  distinct (keys d) -> distinct (keys (dict_setitem d k v)).
Proof.
  intros Hd. destruct (setitem_keys d k v) as [->|[-> Habs]].
  - exact Hd.
  - now apply distinct_snoc.
Qed.

Lemma fold_setitem_distinct pairs : forall d,
  distinct (keys d) ->
  distinct (keys (fold_left (fun d kv => dict_setitem d (fst kv) (snd kv)) pairs d)).
Proof.
  induction pairs as [|[k v] rest IH]; simpl; intros d Hd; [exact Hd|].
  apply IH. now apply setitem_distinct.
Qed.

(** A dict built by [dict(pairs)] has distinct keys. *)
Lemma dict_of_distinct pairs : distinct (keys (dict_of pairs)).
Proof. apply fold_setitem_distinct. exact I. Qed.

Lemma fold_setitem_get pairs : forall d k,
  dict_get (fold_left (fun d kv => dict_setitem d (fst kv) (snd kv)) pairs d) k
  = match lookup_last pairs k with
    | Some v => Some v
    | None => dict_get d k
    end.
Proof.
  induction pairs as [|[k' v'] rest IH]; simpl; intros d k; [reflexivity|].
  rewrite IH. destruct (lookup_last rest k); [reflexivity|].
  rewrite dict_get_setitem. now destruct (py_eq k' k).
Qed.

(** In [dict(pairs)] a key has the value of its last pair. *)
Lemma dict_of_get pairs k : dict_get (dict_of pairs) k = lookup_last pairs k.
Proof.
  unfold dict_of. rewrite fold_setitem_get. now destruct (lookup_last pairs k).
Qed.

Lemma fold_setitem_fresh pairs : forall d,
  distinct (keys (d ++ pairs)) ->
  fold_left (fun d kv => dict_setitem d (fst kv) (snd kv)) pairs d = d ++ pairs.
Proof.
  induction pairs as [|[k v] rest IH]; simpl; intros d Hd.
  - now rewrite app_nil_r.
  - rewrite setitem_absent.
    + rewrite IH; rewrite <- app_assoc; [reflexivity | exact Hd].
    + unfold keys in Hd. rewrite map_app in Hd. simpl in Hd.
      exact (distinct_app_inv _ _ _ Hd).
Qed.

(** With distinct keys [dict(pairs)] holds the pairs as they come. *)
Lemma dict_of_fresh pairs : distinct (keys pairs) -> dict_of pairs = pairs.
Proof. intros Hd. apply (fold_setitem_fresh pairs []). exact Hd. Qed.

(** ** The conversion loop *)

Lemma items_loop_step remaining pos size sample k v :
  length sample = size ->
  nth_error sample pos = Some (k, v) ->
  items_loop (S remaining) pos size sample
  = items_loop remaining (S pos) size (convert_entry sample k v).
Proof.
  intros Hlen Hnth. simpl. rewrite Hlen, Nat.eqb_refl, Hnth. reflexivity.
Qed.

Lemma items_loop_end pos size sample :
  length sample = size -> items_loop 0 pos size sample = Ok sample.
Proof. intros Hlen. simpl. now rewrite Hlen, Nat.eqb_refl. Qed.

Lemma convert_entry_here done k v todo :
  distinct (keys (done ++ (k, v) :: todo)) ->
  convert_entry (done ++ (k, v) :: todo) k v
  = (done ++ [convert_pair (k, v)]) ++ todo.
Proof.
  intros Hd. unfold convert_entry, convert_pair, converted. simpl fst. simpl snd.
  rewrite <- app_assoc. simpl app.
  destruct (hasattr_isoformat v); [|reflexivity].
  apply setitem_present.
  unfold keys in Hd. rewrite map_app in Hd. simpl in Hd.
  exact (distinct_app_inv _ _ _ Hd).
Qed.

Lemma items_loop_spec : forall todo done,
  distinct (keys (done ++ todo)) ->
  items_loop (length todo) (length done) (length (done ++ todo)) (done ++ todo)
  = Ok (done ++ map convert_pair todo).
Proof.
  induction todo as [|[k v] todo IH]; intros done Hd.
  - now rewrite items_loop_end.
  - simpl length at 1.
    rewrite (items_loop_step _ _ _ _ k v); [|reflexivity|].
    + rewrite (convert_entry_here _ _ _ _ Hd).
      replace (S (length done)) with (length (done ++ [convert_pair (k, v)]))
        by (rewrite length_app; simpl; lia).
      replace (length (done ++ (k, v) :: todo))
        with (length ((done ++ [convert_pair (k, v)]) ++ todo))
        by (rewrite !length_app; simpl; lia).
      rewrite IH.
      * now rewrite <- app_assoc.
      * unfold keys in *. rewrite !map_app in *. simpl in *.
        now rewrite <- app_assoc.
    + rewrite nth_error_app2 by lia. now rewrite Nat.sub_diag.
Qed.

(** On a dict with distinct keys the loop never raises and replaces
    every date/time value, in place, by its text. *)
Lemma convert_datetimes_spec d :
  distinct (keys d) ->
  convert_datetimes d = Ok (map convert_pair d).
Proof. intros Hd. exact (items_loop_spec d [] Hd). Qed.

(** ** Running the script *)

Lemma load_workbook_raises fs path e :
  load_workbook fs path = Raise e -> is_Exception (exn_type e) = true.
Proof.
  unfold load_workbook. destruct (fs path) as [|why message|wb]; intros H.
  - now injection H as <-.
  - injection H as <-. now destruct why.
  - discriminate.
Qed.

Lemma dict_failure_TypeError d e :
  dict_failure d = Some e -> exn_type e = TypeError.
Proof.
  induction d as [|[k v] rest IH]; simpl; [discriminate|].
  destruct (key_text k) as [s|e'] eqn:Hk.
  - destruct (json_serializable v); [exact IH|]. now intros [= <-].
  - intros [= <-]. destruct k; simpl in Hk; try discriminate;
      try (destruct b; discriminate); now injection Hk as <-.
Qed.

Lemma json_dumps_raises o e :
  json_dumps o = Raise e -> exn_type e = TypeError.
Proof.
  destruct o as [l|d].
  - rewrite json_dumps_list. destruct (find _ l); [|discriminate].
    now intros [= <-].
  - rewrite json_dumps_dict. destruct (dict_failure d) eqn:Hf; [|discriminate].
    intros [= <-]. exact (dict_failure_TypeError _ _ Hf).
Qed.

(** The loop of the script runs on a dict made by [dict(...)]. *)
Lemma convert_sample sheet :
  convert_datetimes (sample sheet) = Ok (sample_record sheet).
Proof. apply convert_datetimes_spec. apply dict_of_distinct. Qed.

(** A failure to open the workbook leaves the body at once. *)
Lemma body_open_fails fs e :
  load_workbook fs template_path = Raise e ->
  inspect_body fs [] = (Raise e, []).
Proof.
  intros Hload. unfold inspect_body, bind, call. now rewrite Hload.
Qed.

(** An opened workbook: the three ways the body can go. *)
Lemma body_opened fs wb :
  load_workbook fs template_path = Ok wb ->
  inspect_body fs []
  = match json_dumps (OList (headers (active wb))) with
    | Raise e => (Raise e, [HEADERS_label])
    | Ok harr =>
        match json_dumps (ODict (sample_record (active wb))) with
        | Raise e => (Raise e, [HEADERS_label; harr; SAMPLE_label])
        | Ok sobj => (Ok tt, [HEADERS_label; harr; SAMPLE_label; sobj])
        end
    end.
Proof.
  intros Hload. unfold inspect_body, bind, call, print.
  rewrite Hload. cbn [app].
  destruct (json_dumps (OList (headers (active wb)))) as [harr|e]; [|reflexivity].
  cbn [app]. rewrite convert_sample.
  now destruct (json_dumps (ODict (sample_record (active wb)))).
Qed.

(** Whatever the body raises is an [Exception]. *)
Lemma body_raises fs e out :
  inspect_body fs [] = (Raise e, out) -> is_Exception (exn_type e) = true.
Proof.
  destruct (load_workbook fs template_path) as [wb|e0] eqn:Hload.
  - rewrite (body_opened _ _ Hload).
    destruct (json_dumps (OList _)) as [harr|e1] eqn:Hh.
    + destruct (json_dumps (ODict _)) as [sobj|e2] eqn:Hs; [discriminate|].
      intros [= <- _]. now rewrite (json_dumps_raises _ _ Hs).
    + intros [= <- _]. now rewrite (json_dumps_raises _ _ Hh).
  - rewrite (body_open_fails _ _ Hload). intros [= <- _].
    exact (load_workbook_raises _ _ _ Hload).
Qed.

(** The run in terms of the body: an exception is caught and its line is
    printed after what the body had printed. *)
Lemma run_of_body fs :
  run fs
  = match inspect_body fs [] with
    | (Ok _, out) => {| printed := out; uncaught := None |}
    | (Raise e, out) => {| printed := out ++ [error_line e]; uncaught := None |}
    end.
Proof.
  unfold run, inspect, try_except_Exception.
  destruct (inspect_body fs []) as [[[]|e] out] eqn:Hb; [reflexivity|].
  now rewrite (body_raises _ _ _ Hb).
Qed.

Lemma run_open_fails fs e :
  load_workbook fs template_path = Raise e ->
  run fs = {| printed := [error_line e]; uncaught := None |}.
Proof.
  intros Hload. now rewrite run_of_body, (body_open_fails _ _ Hload).
Qed.

Lemma run_opened fs wb :
  load_workbook fs template_path = Ok wb ->
  run fs
  = match json_dumps (OList (headers (active wb))) with
    | Raise e =>
        {| printed := [HEADERS_label; error_line e]; uncaught := None |}
    | Ok harr =>
        match json_dumps (ODict (sample_record (active wb))) with
        | Raise e =>
            {| printed := [HEADERS_label; harr; SAMPLE_label; error_line e];
               uncaught := None |}
        | Ok sobj =>
            {| printed := [HEADERS_label; harr; SAMPLE_label; sobj];
               uncaught := None |}
        end
    end.
Proof.
  intros Hload. rewrite run_of_body, (body_opened _ _ Hload).
  destruct (json_dumps (OList _)); [|reflexivity].
  now destruct (json_dumps (ODict _)).
Qed.

(** ** Lemmas on [zip] *)


Lemma zip_nth_error : forall xs ys i x y,
  nth_error xs i = Some x -> nth_error ys i = Some y ->
  nth_error (zip xs ys) i = Some (x, y).
Proof.
  induction xs as [|x0 xs IH]; intros [|y0 ys] [|i] x y Hx Hy;
    simpl in *; try discriminate.
  - congruence.
  - now apply IH.
Qed.

Lemma zip_nth_error_inv : forall xs ys i x y,
  nth_error (zip xs ys) i = Some (x, y) ->
  nth_error xs i = Some x /\ nth_error ys i = Some y.
Proof.
  induction xs as [|x0 xs IH]; intros [|y0 ys] [|i] x y H;
    simpl in *; try discriminate.
  - injection H as <- <-. auto.
  - now apply IH.
Qed.


Lemma keys_zip : forall xs ys,
  keys (zip xs ys) = firstn (Nat.min (length xs) (length ys)) xs.
Proof.
  induction xs as [|x xs IH]; intros [|y ys]; simpl; try reflexivity.
  f_equal. apply IH.
Qed.

(** The last pair with a given key decides the lookup. *)
Lemma lookup_last_at : forall pairs i k v,
  nth_error pairs i = Some (k, v) ->
  (forall j k' v', (i < j)%nat -> nth_error pairs j = Some (k', v') ->
                   py_eq k' k = false) ->
  lookup_last pairs k = Some v.
Proof.
  induction pairs as [|[k0 v0] rest IH]; intros [|i] k v Hnth Hlater;
    simpl in *; try discriminate.
  - injection Hnth as -> ->.
    assert (Hnone : lookup_last rest k = None).
    { clear IH. induction rest as [|[k1 v1] rest IHr]; simpl; [reflexivity|].
      rewrite IHr.
      - now rewrite (Hlater 1%nat k1 v1 ltac:(lia) eq_refl).
      - intros j k' v' Hj Hn. apply (Hlater (S j) k' v'); [lia|].
        destruct j; [lia|exact Hn]. }
    now rewrite Hnone, py_eq_refl.
  - rewrite (IH i k v Hnth); [reflexivity|].
    intros j k' v' Hj Hn. apply (Hlater (S j) k' v'); [lia|exact Hn].
Qed.


Lemma dict_get_convert d k :
  dict_get (map convert_pair d) k = option_map converted (dict_get d k).
Proof.
  induction d as [|[k' v'] rest IH]; simpl; [reflexivity|].
  now destruct (py_eq k' k).
Qed.

(** ** The report *)

Lemma stdout_text_report harr sobj :
  stdout_text {| printed := [HEADERS_label; harr; SAMPLE_label; sobj];
                 uncaught := None |}
  = lit "HEADERS:" ++ NL ++ harr ++ NL ++ NL ++ lit "SAMPLE ROW:" ++ NL
    ++ sobj ++ NL.
Proof.
  unfold stdout_text, HEADERS_label, SAMPLE_label. cbn [printed map concat].
  now rewrite <- !app_assoc, app_nil_r.
Qed.

(** C1. On a successful run, one whose [try] body reaches its end,
    standard output holds exactly: the line [HEADERS:], the header
    values of row 1 as a JSON array indented by two spaces, in column
    order, a blank line, the line [SAMPLE ROW:], and the sample record
    as a JSON object indented by two spaces; nothing else is written. *)
Theorem successful_run_output (fs : filesystem) :
  completes fs ->
  exists wb,
    load_workbook fs template_path = Ok wb
    /\ forallb json_serializable (headers (active wb)) = true
    /\ dict_failure (sample_record (active wb)) = None
    /\ uncaught (run fs) = None
    /\ stdout_text (run fs)
       = lit "HEADERS:" ++ NL
         ++ pretty_array (map scalar_text (headers (active wb))) ++ NL
         ++ NL
         ++ lit "SAMPLE ROW:" ++ NL
         ++ pretty_object (map member_of (sample_record (active wb))) ++ NL.
Proof.
  unfold completes. intros Hdone.
  destruct (load_workbook fs template_path) as [wb|e] eqn:Hload.
  - exists wb. rewrite (run_opened _ _ Hload).
    rewrite (body_opened _ _ Hload) in Hdone.
    rewrite json_dumps_list, json_dumps_dict in *.
    destruct (find _ (headers (active wb))) eqn:Hfind; [discriminate|].
    destruct (dict_failure (sample_record (active wb))); [discriminate|].
    repeat split; auto using find_none_forallb.
    apply stdout_text_report.
  - rewrite (body_open_fails _ _ Hload) in Hdone. discriminate.
Qed.

Lemma successful_run_output_witness :
  completes abc_template
  /\ stdout_text (run abc_template)
     = lit "HEADERS:" ++ NL
       ++ lit "[" ++ NL
       ++ lit "  " ++ [QUOTE] ++ lit "A" ++ [QUOTE] ++ lit "," ++ NL
       ++ lit "  " ++ [QUOTE] ++ lit "B" ++ [QUOTE] ++ lit "," ++ NL
       ++ lit "  " ++ [QUOTE] ++ lit "C" ++ [QUOTE] ++ NL
       ++ lit "]" ++ NL
       ++ NL
       ++ lit "SAMPLE ROW:" ++ NL
       ++ lit "{" ++ NL
       ++ lit "  " ++ [QUOTE] ++ lit "A" ++ [QUOTE] ++ lit ": 1," ++ NL
       ++ lit "  " ++ [QUOTE] ++ lit "B" ++ [QUOTE] ++ lit ": 2," ++ NL
       ++ lit "  " ++ [QUOTE] ++ lit "C" ++ [QUOTE] ++ lit ": 3" ++ NL
       ++ lit "}" ++ NL.
Proof.
  assert (Hdone : completes abc_template) by reflexivity.
  split; [exact Hdone|].
  destruct (successful_run_output abc_template Hdone)
    as (wb & Hload & _ & _ & _ & Hout).
  rewrite Hout. vm_compute in Hload. injection Hload as <-. reflexivity.
Defined.

(** ** Pairing headers with sample values *)



(** Every row reads as wide as the sheet. *)
Lemma row_values_length sheet i :
  length (row_values sheet i) = Pos.to_nat (max_column sheet).
Proof. unfold row_values. now rewrite length_map, length_seq. Qed.

Lemma headers_length sheet :
  length (headers sheet) = Pos.to_nat (max_column sheet).
Proof. apply row_values_length. Qed.

(** The sample row is as long as row 1 when the sheet has a second row
    and empty when it has none. *)
Lemma row_data_cases sheet :
  ((max_row sheet >=? 2) = true
   /\ length (row_data sheet) = length (headers sheet))
  \/ ((max_row sheet >=? 2) = false /\ row_data sheet = []).
Proof.
  unfold row_data. destruct (max_row sheet >=? 2).
  - left. split; [reflexivity|]. now rewrite headers_length, row_values_length.
  - right. auto.
Qed.

Lemma zip_nil_r xs : zip xs [] = [].
Proof. now destruct xs. Qed.

Lemma sample_without_row_data sheet :
  row_data sheet = [] -> sample sheet = [] /\ sample_record sheet = [].
Proof.
  intros Hrow. unfold sample_record, sample. now rewrite Hrow, zip_nil_r.
Qed.




(** ** The shapes of standard output *)

(** C3, as stated, fails: a date in row 1 stops the run after the
    [HEADERS:] label, so the output is that label and an error line,
    neither the full report nor an error line alone. *)
Lemma partial_report_after_headers_label :
  printed (run dated_header_template)
  = [lit "HEADERS:"; lit "Error: Object of type date is not JSON serializable"]
  /\ ~ report_or_error_only dated_header_template.
Proof.
  split; [reflexivity|].
  intros [(wb & harr & sobj & _ & _ & _ & Hout) | (e & Hout)];
    vm_compute in Hout; discriminate.
Qed.

(** ** Date/time values of the sample row *)




(** ** A missing file *)

(** C5. When no file is at the path, the run prints one line,
    [Error: ] and the message of the failed open, and neither label. *)
Theorem missing_file_prints_one_error_line (fs : filesystem) :
  fs template_path = Missing ->
  printed (run fs)
  = [lit "Error: [Errno 2] No such file or directory: 'prueba2.xlsx'"]
  /\ stdout_text (run fs)
     = lit "Error: [Errno 2] No such file or directory: 'prueba2.xlsx'" ++ NL
  /\ line_count (stdout_text (run fs)) = 1%nat
  /\ ~ In HEADERS_label (printed (run fs))
  /\ ~ In SAMPLE_label (printed (run fs)).
Proof.
  intros Hmiss.
  assert (Hrun : run fs
                 = {| printed := [lit "Error: [Errno 2] No such file or directory: 'prueba2.xlsx'"];
                      uncaught := None |}).
  { rewrite (run_open_fails fs
               {| exn_type := FileNotFoundError;
                  exn_str := lit "[Errno 2] No such file or directory: "
                             ++ path_repr template_path |}).
    - reflexivity.
    - unfold load_workbook. now rewrite Hmiss. }
  rewrite Hrun. repeat split.
  - intros [H|[]]. vm_compute in H. discriminate.
  - intros [H|[]]. vm_compute in H. discriminate.
Qed.

Lemma missing_file_prints_one_error_line_witness :
  template_is Missing template_path = Missing
  /\ stdout_text (run (template_is Missing))
     = lit "Error: [Errno 2] No such file or directory: 'prueba2.xlsx'" ++ NL.
Proof.
  assert (Hmiss : template_is Missing template_path = Missing) by reflexivity.
  split; [exact Hmiss|].
  exact (proj1 (proj2 (missing_file_prints_one_error_line _ Hmiss))).
Defined.

(** ** A sheet without a second row *)

(** C6, as stated, fails: on a sheet of one row with a date among the
    headers the run ends after the [HEADERS:] label and prints no
    sample object, [{}] or other. *)
Lemma one_row_sheet_may_print_no_object :
  load_workbook dated_header_template template_path
  = Ok {| active := sheet_of 1 [hA; a_date] [] |}
  /\ max_row (sheet_of 1 [hA; a_date] []) < 2
  /\ printed (run dated_header_template)
     = [lit "HEADERS:"; lit "Error: Object of type date is not JSON serializable"]
  /\ ~ prints_empty_sample_object dated_header_template.
Proof.
  split; [reflexivity|]. split; [reflexivity|]. split; [reflexivity|].
  intros [harr Hout]. vm_compute in Hout. discriminate.
Qed.

(** C6, amended. On a sheet with fewer than two rows the sample row is
    empty and the sample record is the empty dict, before and after the
    loop, which [json.dumps] renders as [{}].  When the header array can
    be encoded the run prints it and then [{}] as the sample object;
    when it cannot, the run prints the [HEADERS:] label and the error
    message, and no sample object. *)
Theorem one_row_sheet_has_empty_sample (fs : filesystem) (wb : workbook) :
  load_workbook fs template_path = Ok wb ->
  max_row (active wb) < 2 ->
  row_data (active wb) = []
  /\ sample (active wb) = []
  /\ convert_datetimes (sample (active wb)) = Ok []
  /\ json_dumps (ODict []) = Ok (lit "{}")
  /\ run fs
     = match json_dumps (OList (headers (active wb))) with
       | Ok harr =>
           {| printed := [HEADERS_label; harr; SAMPLE_label; lit "{}"];
              uncaught := None |}
       | Raise e =>
           {| printed := [HEADERS_label; error_line e]; uncaught := None |}
       end.
Proof.
  intros Hload Hrows.
  assert (Hrow : row_data (active wb) = []).
  { unfold row_data. destruct (max_row (active wb) >=? 2) eqn:Hge; [|reflexivity].
    rewrite Z.geb_le in Hge. lia. }
  assert (Hsample : sample (active wb) = []).
  { unfold sample. rewrite Hrow, zip_nil_r. reflexivity. }
  repeat split; try assumption.
  - now rewrite Hsample.
  - rewrite (run_opened _ _ Hload). unfold sample_record. rewrite Hsample.
    reflexivity.
Qed.

Lemma one_row_sheet_has_empty_sample_witness :
  max_row (sheet_of 1 [hA; hB] []) < 2
  /\ stdout_text (run header_only_template)
     = lit "HEADERS:" ++ NL
       ++ lit "[" ++ NL
       ++ lit "  " ++ [QUOTE] ++ lit "A" ++ [QUOTE] ++ lit "," ++ NL
       ++ lit "  " ++ [QUOTE] ++ lit "B" ++ [QUOTE] ++ NL
       ++ lit "]" ++ NL
       ++ NL
       ++ lit "SAMPLE ROW:" ++ NL
       ++ lit "{}" ++ NL.
Proof.
  assert (Hrows : max_row (sheet_of 1 [hA; hB] []) < 2) by (simpl; lia).
  split; [exact Hrows|].
  destruct (one_row_sheet_has_empty_sample header_only_template
              {| active := sheet_of 1 [hA; hB] [] |} eq_refl Hrows)
    as (_ & _ & _ & _ & Hrun).
  rewrite Hrun. reflexivity.
Defined.

(** ** The handler *)

(** C7. No run ends with an exception: whatever the body raises, be it
    the open of the workbook or an encoding, is an [Exception], is
    caught, and is printed as a line of text after what was printed
    before; the process exits with status 0. *)
Theorem every_failure_is_caught (fs : filesystem) :
  uncaught (run fs) = None
  /\ exit_status (run fs) = 0
  /\ match inspect_body fs [] with
     | (Ok _, out) => printed (run fs) = out
     | (Raise e, out) =>
         is_Exception (exn_type e) = true
         /\ printed (run fs) = out ++ [error_line e]
     end.
Proof.
  rewrite run_of_body.
  destruct (inspect_body fs []) as [[[]|e] out] eqn:Hb.
  - repeat split.
  - repeat split. exact (body_raises _ _ _ Hb).
Qed.

(** ** A date among the headers *)

Lemma isoformat_not_serializable v :
  hasattr_isoformat v = true -> json_serializable v = false.
Proof. now destruct v. Qed.

(** C10. The headers go to [json.dumps] as they were read: when row 1
    holds a date/time value, encoding the header list raises a
    [TypeError] for the first value the encoder has no branch for, and
    the run prints the [HEADERS:] label and then the error line. *)
Theorem dated_header_stops_after_label
  (fs : filesystem) (wb : workbook) (v : value) :
  load_workbook fs template_path = Ok wb ->
  In v (headers (active wb)) ->
  hasattr_isoformat v = true ->
  exists bad,
    find (fun x => negb (json_serializable x)) (headers (active wb)) = Some bad
    /\ json_dumps (OList (headers (active wb))) = Raise (default_error bad)
    /\ exn_type (default_error bad) = TypeError
    /\ run fs
       = {| printed := [lit "HEADERS:";
                        lit "Error: Object of type " ++ class_name bad
                        ++ lit " is not JSON serializable"];
            uncaught := None |}.
Proof.
  intros Hload Hin Hiso.
  destruct (find (fun x => negb (json_serializable x)) (headers (active wb)))
    as [bad|] eqn:Hfind.
  - exists bad. rewrite (run_opened _ _ Hload), json_dumps_list, Hfind.
    repeat split.
  - pose proof (find_none _ _ Hfind v Hin) as Hser. simpl in Hser.
    rewrite (isoformat_not_serializable v Hiso) in Hser. discriminate.
Qed.

Lemma dated_header_stops_after_label_witness :
  In a_date [hA; a_date]
  /\ hasattr_isoformat a_date = true
  /\ printed (run dated_header_template)
     = [lit "HEADERS:"; lit "Error: Object of type date is not JSON serializable"].
Proof.
  assert (Hin : In a_date [hA; a_date]) by (right; left; reflexivity).
  split; [exact Hin|]. split; [reflexivity|].
  destruct (dated_header_stops_after_label dated_header_template
              {| active := sheet_of 1 [hA; a_date] [] |} a_date
              eq_refl Hin eq_refl)
    as (bad & Hfind & _ & _ & Hrun).
  rewrite Hrun. vm_compute in Hfind. injection Hfind as <-. reflexivity.
Defined.

(** ** Headers that repeat *)

Lemma paired_nth_error sheet i k v :
  nth_error (headers sheet) i = Some k ->
  nth_error (row_data sheet) i = Some v ->
  (i < paired sheet)%nat.
Proof.
  intros Hk Hv. unfold paired.
  assert (i < length (headers sheet))%nat
    by (apply nth_error_Some; congruence).
  assert (i < length (row_data sheet))%nat
    by (apply nth_error_Some; congruence).
  lia.
Qed.

(** Among the columns that have a sample value, the last one holding a
    given header decides: the record maps the header to the sample value
    of that column (to its ISO text for a date/time value), whatever the
    earlier columns with an equal header held. *)
Lemma later_pairing_overwrites (sheet : worksheet) (i : nat) (k v : value) :
  last_paired_occurrence sheet k i ->
  nth_error (row_data sheet) i = Some v ->
  dict_get (sample sheet) k = Some v
  /\ dict_get (sample_record sheet) k = Some (converted v).
Proof.
  intros [Hk Hlater] Hv.
  assert (Hget : dict_get (sample sheet) k = Some v).
  { unfold sample. rewrite dict_of_get.
    apply (lookup_last_at _ i).
    - now apply zip_nth_error.
    - intros j k' v' Hj Hn. apply zip_nth_error_inv in Hn as [Hk' Hv'].
      apply (Hlater j k' Hj); [|exact Hk'].
      exact (paired_nth_error _ _ _ _ Hk' Hv'). }
  split; [exact Hget|].
  unfold sample_record. now rewrite dict_get_convert, Hget.
Qed.

(** C8. A header that occurs in several columns is one key of the
    record, and the record maps it to the sample value of the column of
    its last occurrence (to the ISO text of that value for a date/time):
    each later pairing overwrites the earlier ones.  On a sheet without
    a second row there is no sample value and the record has no key. *)
Theorem duplicate_header_maps_to_last_occurrence
  (sheet : worksheet) (k : value) (i : nat) :
  duplicated sheet k i ->
  last_occurrence sheet k i ->
  dict_get (sample_record sheet) k
  = option_map converted (nth_error (row_data sheet) i)
  /\ (if max_row sheet >=? 2
      then exists v, nth_error (row_data sheet) i = Some v
                     /\ dict_get (sample sheet) k = Some v
                     /\ dict_get (sample_record sheet) k = Some (converted v)
      else row_data sheet = [] /\ dict_get (sample_record sheet) k = None).
Proof.
  intros _ [Hk Hlater].
  destruct (row_data_cases sheet) as [[Hrows Hsame]|[Hrows Hrow]]; rewrite Hrows.
  - assert (Hi : (i < length (row_data sheet))%nat).
    { rewrite Hsame. apply nth_error_Some. congruence. }
    destruct (nth_error (row_data sheet) i) as [v|] eqn:Hv;
      [|apply nth_error_None in Hv; lia].
    destruct (later_pairing_overwrites sheet i k v) as [Hget Hrec].
    + split; [exact Hk|]. intros j k' Hj _ Hk'. now apply (Hlater j k').
    + exact Hv.
    + split; [exact Hrec|]. exists v. auto.
  - destruct (sample_without_row_data sheet Hrow) as [_ Hrecord].
    rewrite Hrecord, Hrow. destruct i; simpl; auto.
Qed.

Lemma duplicate_header_maps_to_last_occurrence_witness :
  headers repeated_header_sheet = [hA; hB; hA]
  /\ row_data repeated_header_sheet = [VInt 1; VInt 2; a_date]
  /\ duplicated repeated_header_sheet hA 2
  /\ last_occurrence repeated_header_sheet hA 2
  /\ dict_get (sample_record repeated_header_sheet) hA
     = Some (VStr (lit "2024-01-31")).
Proof.
  assert (Hdup : duplicated repeated_header_sheet hA 2).
  { exists 0%nat, hA. repeat split. lia. }
  assert (Hlast : last_occurrence repeated_header_sheet hA 2).
  { split; [reflexivity|]. intros j k' Hj Hn.
    do 3 (destruct j as [|j]; [lia|]). destruct j; discriminate. }
  split; [reflexivity|]. split; [reflexivity|].
  split; [exact Hdup|]. split; [exact Hlast|].
  rewrite (proj1 (duplicate_header_maps_to_last_occurrence
                    repeated_header_sheet hA 2 Hdup Hlast)).
  reflexivity.
Defined.

(** ** The order of the members *)

Lemma setitem_keys_existsb d k v :
  keys (dict_setitem d k v)
  = if existsb (fun s => py_eq s k) (keys d) then keys d else keys d ++ [k].
Proof.
  induction d as [|[s x] rest IH]; simpl; [reflexivity|].
  destruct (py_eq s k); simpl; [reflexivity|].
  rewrite IH. now destruct (existsb _ (keys rest)).
Qed.

Lemma fold_setitem_keys pairs : forall d,
  keys (fold_left (fun d kv => dict_setitem d (fst kv) (snd kv)) pairs d)
  = keys d ++ first_occurrences (keys d) (keys pairs).
Proof.
  induction pairs as [|[k v] rest IH]; simpl; intros d.
  - now rewrite app_nil_r.
  - rewrite IH, setitem_keys_existsb.
    destruct (existsb _ (keys d)); [reflexivity|].
    now rewrite <- app_assoc.
Qed.

Lemma keys_dict_of pairs :
  keys (dict_of pairs) = first_occurrences [] (keys pairs).
Proof. unfold dict_of. now rewrite fold_setitem_keys. Qed.

Lemma keys_map_convert_pair d : keys (map convert_pair d) = keys d.
Proof. unfold keys. rewrite map_map. reflexivity. Qed.

(** X1. The members of the sample object come in column order: the keys
    of the record are the headers of the paired columns, each at the
    place of its first occurrence, and the conversion loop changes
    neither the keys nor their order. *)
Theorem members_in_column_order (sheet : worksheet) :
  keys (sample sheet)
  = first_occurrences [] (firstn (paired sheet) (headers sheet))
  /\ keys (sample_record sheet) = keys (sample sheet)
  /\ map fst (map member_of (sample_record sheet))
     = map member_key
         (first_occurrences [] (firstn (paired sheet) (headers sheet))).
Proof.
  assert (Hkeys : keys (sample sheet)
                  = first_occurrences [] (firstn (paired sheet) (headers sheet))).
  { unfold sample. rewrite keys_dict_of, keys_zip. reflexivity. }
  assert (Hconv : keys (sample_record sheet) = keys (sample sheet))
    by apply keys_map_convert_pair.
  repeat split; try assumption.
  rewrite <- Hkeys, <- Hconv. unfold keys, member_of.
  rewrite !map_map. reflexivity.
Qed.

(** ** Where the entries of the sample come from *)

Lemma setitem_values d k v b :
  In b (map snd (dict_setitem d k v)) -> In b (map snd d) \/ b = v.
Proof.
  induction d as [|[s x] rest IH]; simpl.
  - intros [<-|[]]. now right.
  - destruct (py_eq s k); simpl.
    + intros [<-|Hin]; [now right | left; now right].
    + intros [<-|Hin]; [left; now left|].
      destruct (IH Hin) as [H|H]; [left; now right | now right].
Qed.

Lemma fold_setitem_values pairs : forall d b,
  In b (map snd (fold_left (fun d kv => dict_setitem d (fst kv) (snd kv)) pairs d)) ->
  In b (map snd d) \/ In b (map snd pairs).
Proof.
  induction pairs as [|[k v] rest IH]; simpl; intros d b Hin; [now left|].
  destruct (IH _ _ Hin) as [H|H].
  - destruct (setitem_values _ _ _ _ H) as [H' | ->]; [now left | right; now left].
  - right. now right.
Qed.

Lemma first_occurrences_incl : forall ks seen k,
  In k (first_occurrences seen ks) -> In k ks.
Proof.
  induction ks as [|k0 rest IH]; simpl; intros seen k Hin; [contradiction|].
  destruct (existsb _ seen).
  - right. now apply (IH seen).
  - destruct Hin as [<-|Hin]; [now left | right; now apply (IH (seen ++ [k0]))].
Qed.

Lemma zip_keys_incl : forall xs ys k, In k (keys (zip xs ys)) -> In k xs.
Proof.
  induction xs as [|x xs IH]; intros [|y ys] k; simpl; try contradiction.
  intros [<-|Hin]; [now left | right; now apply (IH ys)].
Qed.

Lemma zip_values_incl : forall xs ys v, In v (map snd (zip xs ys)) -> In v ys.
Proof.
  induction xs as [|x xs IH]; intros [|y ys] v; simpl; try contradiction.
  intros [<-|Hin]; [now left | right; now apply IH].
Qed.

(** Every key of the sample is a header and every value a cell of the
    sample row. *)
Lemma sample_entry_origin sheet k v :
  In (k, v) (sample sheet) ->
  In k (headers sheet) /\ In v (row_data sheet).
Proof.
  intros Hin. split.
  - apply (zip_keys_incl _ (row_data sheet)).
    apply (first_occurrences_incl _ []).
    rewrite <- keys_dict_of. exact (in_map fst _ _ Hin).
  - apply (zip_values_incl (headers sheet)).
    destruct (fold_setitem_values _ [] v (in_map snd _ _ Hin)) as [[]|H].
    exact H.
Qed.

Lemma serializable_key_text k :
  json_serializable k = true -> exists s, key_text k = Ok s.
Proof.
  destruct k as [|[]| | | | | | |]; simpl; try discriminate; eauto.
Qed.

Lemma serializable_converted v :
  json_serializable (converted v) = showable v.
Proof. unfold showable. destruct v as [|[]| | | | | | |]; reflexivity. Qed.

Lemma forallb_in_headers sheet k :
  forallb json_serializable (headers sheet) = true ->
  In k (headers sheet) -> json_serializable k = true.
Proof. intros Hall Hin. rewrite forallb_forall in Hall. now apply Hall. Qed.

(** With encodable keys the dict generator fails on the first value it
    has no branch for, and only there. *)
Lemma dict_failure_values d :
  (forall k v, In (k, v) d -> json_serializable k = true) ->
  match dict_failure d with
  | None => forallb (fun kv => json_serializable (snd kv)) d = true
  | Some e =>
      exists k v, In (k, v) d /\ json_serializable v = false
                  /\ e = default_error v
  end.
Proof.
  induction d as [|[k v] rest IH]; simpl; intros Hkeys; [reflexivity|].
  destruct (serializable_key_text k (Hkeys k v (or_introl eq_refl))) as [s ->].
  destruct (json_serializable v) eqn:Hv.
  - simpl. specialize (IH (fun k' v' H => Hkeys k' v' (or_intror H))).
    destruct (dict_failure rest) as [e|]; [|exact IH].
    destruct IH as (k' & v' & Hin & Hbad & ->). exists k', v'. auto.
  - exists k, v. auto.
Qed.

Lemma sample_record_keys_ok sheet :
  forallb json_serializable (headers sheet) = true ->
  forall k v, In (k, v) (sample_record sheet) -> json_serializable k = true.
Proof.
  intros Hall k v Hin. unfold sample_record in Hin.
  apply in_map_iff in Hin as [[k0 v0] [Heq Hin]].
  injection Heq as <- _.
  exact (forallb_in_headers _ _ Hall (proj1 (sample_entry_origin _ _ _ Hin))).
Qed.

Lemma forallb_sample_record sheet :
  forallb (fun kv => json_serializable (snd kv)) (sample_record sheet)
  = forallb (fun kv => showable (snd kv)) (sample sheet).
Proof.
  unfold sample_record. induction (sample sheet) as [|[k v] rest IH]; simpl;
    [reflexivity|].
  now rewrite IH, serializable_converted.
Qed.

(** ** When the report is complete *)

(** X3. The run gives the full report exactly when the workbook opens,
    every cell of row 1 is text, a number, a boolean or empty, and every
    value kept in the sample record is one of those or a date/time. *)
Theorem completes_iff_showable (fs : filesystem) :
  completes fs
  <-> exists wb,
        load_workbook fs template_path = Ok wb
        /\ forallb json_serializable (headers (active wb)) = true
        /\ forallb (fun kv => showable (snd kv)) (sample (active wb)) = true.
Proof.
  unfold completes. split.
  - intros Hdone.
    destruct (load_workbook fs template_path) as [wb|e] eqn:Hload.
    + exists wb. rewrite (body_opened _ _ Hload) in Hdone.
      rewrite json_dumps_list, json_dumps_dict in Hdone.
      destruct (find _ (headers (active wb))) eqn:Hfind; [discriminate|].
      pose proof (find_none_forallb _ Hfind) as Hall.
      pose proof (dict_failure_values _ (sample_record_keys_ok _ Hall)) as Hd.
      destruct (dict_failure (sample_record (active wb))); [discriminate|].
      rewrite forallb_sample_record in Hd. auto.
    + rewrite (body_open_fails _ _ Hload) in Hdone. discriminate.
  - intros (wb & Hload & Hall & Hshow).
    rewrite (body_opened _ _ Hload), json_dumps_list, json_dumps_dict.
    destruct (find _ (headers (active wb))) as [bad|] eqn:Hfind.
    + apply find_some in Hfind as [Hin Hbad].
      rewrite (forallb_in_headers _ _ Hall Hin) in Hbad. discriminate.
    + pose proof (dict_failure_values _ (sample_record_keys_ok _ Hall)) as Hd.
      destruct (dict_failure (sample_record (active wb))); [|reflexivity].
      destruct Hd as (k & v & Hin & Hbad & _).
      rewrite <- forallb_sample_record, forallb_forall in Hshow.
      specialize (Hshow (k, v) Hin). simpl in Hshow. congruence.
Qed.

(** ** The characters of the output *)

Lemma printable_report_char c : printable c = true -> report_char c = true.
Proof. unfold report_char. now intros ->. Qed.

Lemma forallb_printable_report (s : pystr) :
  forallb printable s = true -> forallb report_char s = true.
Proof.
  rewrite !forallb_forall. intros H c Hin. apply printable_report_char. auto.
Qed.

Lemma lit_String c s : lit (String c s) = N_of_ascii c :: lit s.
Proof. reflexivity. Qed.

Lemma uint_printable d :
  forallb printable (lit (NilEmpty.string_of_uint d)) = true.
Proof.
  induction d; cbn [NilEmpty.string_of_uint]; rewrite ?lit_String;
    cbn [forallb]; rewrite ?IHd; reflexivity.
Qed.

Lemma nilzero_uint_printable d :
  forallb printable (lit (NilZero.string_of_uint d)) = true.
Proof.
  destruct d; try reflexivity; apply (uint_printable (_ d)).
Qed.

Lemma int_repr_printable n : forallb printable (int_repr n) = true.
Proof.
  unfold int_repr. destruct (Z.to_int n) as [d|d]; cbn [NilZero.string_of_int].
  - apply nilzero_uint_printable.
  - rewrite lit_String. cbn [forallb]. now rewrite nilzero_uint_printable.
Qed.

Lemma hex_digit_printable x : printable (hex_digit (N.land x 15)) = true.
Proof.
  assert (Hlt : (N.land x 15 < 16)%N).
  { change 15%N with (N.ones 4). rewrite N.land_ones.
    apply N.mod_lt. discriminate. }
  unfold hex_digit, printable.
  destruct (N.land x 15 <? 10)%N eqn:Hd.
  - apply N.ltb_lt in Hd. apply andb_true_iff. split; apply N.leb_le; lia.
  - apply N.ltb_ge in Hd. apply andb_true_iff. split; apply N.leb_le; lia.
Qed.

Lemma hex4_printable n : forallb printable (hex4 n) = true.
Proof.
  unfold hex4. cbn [forallb]. now rewrite !hex_digit_printable.
Qed.

Lemma escape_char_printable c : forallb printable (escape_char c) = true.
Proof.
  unfold escape_char.
  repeat match goal with
         | |- context [if ?b then _ else _] =>
             let H := fresh "H" in destruct b eqn:H
         end;
    try reflexivity.
  - cbn [forallb]. unfold printable. now rewrite H6.
  - change (BACKSLASH :: lit "u" ++ hex4 c) with ([BACKSLASH; 117%N] ++ hex4 c).
    rewrite forallb_app, hex4_printable. reflexivity.
  - match goal with
    | |- forallb printable ((BACKSLASH :: lit "u" ++ hex4 ?a)
                            ++ (BACKSLASH :: lit "u" ++ hex4 ?b)) = true =>
        change (forallb printable (([BACKSLASH; 117%N] ++ hex4 a)
                                   ++ ([BACKSLASH; 117%N] ++ hex4 b)) = true)
    end.
    rewrite !forallb_app, !hex4_printable. reflexivity.
Qed.

(** Whatever the text, its JSON string is printable ASCII. *)
Lemma encode_basestring_ascii_printable s :
  forallb printable (encode_basestring_ascii s) = true.
Proof.
  unfold encode_basestring_ascii. rewrite !forallb_app.
  assert (H : forallb printable (flat_map escape_char s) = true).
  { induction s as [|c s IH]; [reflexivity|].
    cbn [flat_map]. now rewrite forallb_app, escape_char_printable, IH. }
  now rewrite H.
Qed.

Lemma scalar_text_printable v :
  float_repr_printable v = true -> forallb printable (scalar_text v) = true.
Proof.
  unfold scalar_text.
  destruct v as [|[]|n|f|s| | | |]; cbn [encode_scalar float_repr_printable];
    intros Hf; try reflexivity.
  - apply int_repr_printable.
  - unfold floatstr. destruct (float_val f) as [m e|[]]; [exact Hf| |]; reflexivity.
  - apply encode_basestring_ascii_printable.
Qed.

Lemma class_name_printable v : forallb printable (class_name v) = true.
Proof. now destruct v. Qed.

Lemma default_error_line_printable v :
  forallb printable (error_line (default_error v)) = true.
Proof.
  unfold error_line, default_error. cbn [exn_str].
  now rewrite !forallb_app, class_name_printable.
Qed.

Lemma pretty_member_printable (m : pystr * pystr) :
  forallb printable (snd m) = true ->
  forallb printable (pretty_member m) = true.
Proof.
  intros H. unfold pretty_member.
  rewrite forallb_app, encode_basestring_ascii_printable, forallb_app, H.
  reflexivity.
Qed.

Lemma join_report_char (sep : pystr) : forall items : list pystr,
  forallb report_char sep = true ->
  forallb (forallb printable) items = true ->
  forallb report_char (join sep items) = true.
Proof.
  intros items Hsep. induction items as [|p rest IH]; [reflexivity|].
  cbn [forallb]. intros Hall. apply andb_true_iff in Hall as [Hp Hrest].
  destruct rest as [|q rest'].
  - now apply forallb_printable_report.
  - rewrite join_cons. specialize (IH Hrest).
    set (J := join sep (q :: rest')) in *.
    now rewrite !forallb_app, (forallb_printable_report _ Hp), Hsep, IH.
Qed.

Lemma pretty_array_report_char (items : list pystr) :
  forallb (forallb printable) items = true ->
  forallb report_char (pretty_array items) = true.
Proof.
  intros Hall. destruct items as [|p rest]; [reflexivity|].
  unfold pretty_array. rewrite !forallb_app.
  now rewrite (join_report_char (lit "," ++ NL ++ lit "  ") (p :: rest) eq_refl Hall).
Qed.

Lemma pretty_object_report_char (members : list (pystr * pystr)) :
  forallb (fun m => forallb printable (snd m)) members = true ->
  forallb report_char (pretty_object members) = true.
Proof.
  intros Hall. destruct members as [|m rest]; [reflexivity|].
  unfold pretty_object. rewrite !forallb_app.
  rewrite (join_report_char (lit "," ++ NL ++ lit "  ")
             (map pretty_member (m :: rest)) eq_refl);
    [reflexivity|].
  rewrite forallb_forall in *. intros t Hin.
  apply in_map_iff in Hin as [m' [<- Hin]].
  apply pretty_member_printable. now apply Hall.
Qed.

Lemma headers_texts_printable l :
  forallb float_repr_printable l = true ->
  forallb (forallb printable) (map scalar_text l) = true.
Proof.
  rewrite !forallb_forall. intros Hall t Hin.
  apply in_map_iff in Hin as [v [<- Hin]].
  apply scalar_text_printable. now apply Hall.
Qed.

Lemma float_repr_printable_converted v :
  float_repr_printable v = true -> float_repr_printable (converted v) = true.
Proof. unfold converted. now destruct v. Qed.

Lemma sample_texts_printable sheet :
  forallb float_repr_printable (row_data sheet) = true ->
  forallb (fun m => forallb printable (snd m))
          (map member_of (sample_record sheet)) = true.
Proof.
  rewrite !forallb_forall. intros Hall m Hin.
  apply in_map_iff in Hin as [[k v] [<- Hin]].
  unfold sample_record in Hin. apply in_map_iff in Hin as [[k0 v0] [Heq Hin]].
  injection Heq as _ <-. cbn [member_of snd].
  apply scalar_text_printable, float_repr_printable_converted, Hall.
  exact (proj2 (sample_entry_origin _ _ _ Hin)).
Qed.

Lemma stdout_text_report_char (out : list pystr) :
  forallb (forallb report_char) out = true ->
  forallb report_char (stdout_text {| printed := out; uncaught := None |}) = true.
Proof.
  unfold stdout_text. cbn [printed].
  induction out as [|s rest IH]; [reflexivity|].
  cbn [forallb map concat]. intros Hall.
  apply andb_true_iff in Hall as [Hs Hrest].
  now rewrite !forallb_app, Hs, (IH Hrest).
Qed.

(** X5. Once the workbook is open the output is plain ASCII whatever
    the cells hold: every code point written is printable ASCII or a
    line end, since [json.dumps] escapes the rest, provided the [repr]
    of each float cell is printable ASCII. *)
Theorem output_is_ascii (fs : filesystem) (wb : workbook) :
  load_workbook fs template_path = Ok wb ->
  forallb float_repr_printable (headers (active wb)) = true ->
  forallb float_repr_printable (row_data (active wb)) = true ->
  forallb report_char (stdout_text (run fs)) = true.
Proof.
  intros Hload Hh Hr. rewrite (run_opened _ _ Hload).
  rewrite json_dumps_list, json_dumps_dict.
  pose proof (pretty_array_report_char _ (headers_texts_printable _ Hh)) as Harr.
  destruct (find _ (headers (active wb))) as [bad|] eqn:Hfind.
  - apply stdout_text_report_char. cbn [forallb].
    now rewrite (forallb_printable_report _ (default_error_line_printable bad)).
  - pose proof (find_none_forallb _ Hfind) as Hall.
    pose proof (dict_failure_values _ (sample_record_keys_ok _ Hall)) as Hd.
    destruct (dict_failure (sample_record (active wb))) as [e|].
    + destruct Hd as (k & v & _ & _ & ->).
      apply stdout_text_report_char. cbn [forallb]. rewrite Harr.
      now rewrite (forallb_printable_report _ (default_error_line_printable v)).
    + apply stdout_text_report_char. cbn [forallb]. rewrite Harr.
      now rewrite (pretty_object_report_char _ (sample_texts_printable _ Hr)).
Qed.

Lemma output_is_ascii_witness :
  stdout_text (run (template_is (Holds {| active := accent_sheet |})))
  = lit "HEADERS:" ++ NL
    ++ lit "[" ++ NL
    ++ lit "  " ++ [QUOTE] ++ lit "N" ++ [BACKSLASH] ++ lit "u00fam" ++ [QUOTE] ++ NL
    ++ lit "]" ++ NL
    ++ NL
    ++ lit "SAMPLE ROW:" ++ NL
    ++ lit "{" ++ NL
    ++ lit "  " ++ [QUOTE] ++ lit "N" ++ [BACKSLASH] ++ lit "u00fam" ++ [QUOTE]
    ++ lit ": " ++ [QUOTE] ++ lit "a" ++ [BACKSLASH] ++ lit "nb" ++ [QUOTE] ++ NL
    ++ lit "}" ++ NL
  /\ forallb report_char
       (stdout_text (run (template_is (Holds {| active := accent_sheet |}))))
     = true.
Proof.
  split; [reflexivity|].
  exact (output_is_ascii (template_is (Holds {| active := accent_sheet |}))
           {| active := accent_sheet |} eq_refl eq_refl eq_refl).
Defined.

(** ** The lines of the report *)

Lemma line_count_app (a b : pystr) :
  line_count (a ++ b) = (line_count a + line_count b)%nat.
Proof. unfold line_count. now rewrite filter_app, length_app. Qed.

Lemma printable_not_newline c : printable c = true -> N.eqb 10 c = false.
Proof.
  unfold printable. intros H. apply andb_true_iff in H as [H _].
  apply N.leb_le in H. apply N.eqb_neq. lia.
Qed.

Lemma line_count_printable (s : pystr) :
  forallb printable s = true -> line_count s = 0%nat.
Proof.
  unfold line_count. induction s as [|c s IH]; [reflexivity|].
  cbn [forallb filter]. intros H. apply andb_true_iff in H as [Hc Hs].
  rewrite (printable_not_newline c Hc). now apply IH.
Qed.

Lemma line_count_join (sep : pystr) : forall (p : pystr) (rest : list pystr),
  forallb (forallb printable) (p :: rest) = true ->
  line_count (join sep (p :: rest)) = (length rest * line_count sep)%nat.
Proof.
  intros p rest. revert p.
  induction rest as [|q rest IH]; intros p Hall;
    cbn [forallb] in Hall; apply andb_true_iff in Hall as [Hp Hrest].
  - now apply line_count_printable.
  - rewrite join_cons, !line_count_app, (line_count_printable p Hp).
    rewrite (IH q Hrest). simpl length. lia.
Qed.

Lemma line_count_pretty_array (items : list pystr) :
  forallb (forallb printable) items = true ->
  line_count (pretty_array items) = block_line_ends (length items).
Proof.
  destruct items as [|p rest]; intros Hall; [reflexivity|].
  unfold pretty_array. rewrite !line_count_app.
  rewrite (line_count_join (lit "," ++ NL ++ lit "  ") p rest Hall).
  change (line_count (lit "," ++ NL ++ lit "  ")) with 1%nat.
  change (line_count (lit "[")) with 0%nat.
  change (line_count (lit "]")) with 0%nat.
  change (line_count (lit "  ")) with 0%nat.
  change (line_count NL) with 1%nat.
  simpl length. unfold block_line_ends. lia.
Qed.

Lemma line_count_pretty_object (members : list (pystr * pystr)) :
  forallb (fun m => forallb printable (snd m)) members = true ->
  line_count (pretty_object members) = block_line_ends (length members).
Proof.
  destruct members as [|m rest]; intros Hall; [reflexivity|].
  unfold pretty_object. rewrite !line_count_app.
  change (map pretty_member (m :: rest))
    with (pretty_member m :: map pretty_member rest).
  rewrite (line_count_join (lit "," ++ NL ++ lit "  ")).
  - change (line_count (lit "," ++ NL ++ lit "  ")) with 1%nat.
    change (line_count (lit "{")) with 0%nat.
    change (line_count (lit "}")) with 0%nat.
    change (line_count (lit "  ")) with 0%nat.
    change (line_count NL) with 1%nat.
    rewrite length_map. simpl length. unfold block_line_ends. lia.
  - change (pretty_member m :: map pretty_member rest)
      with (map pretty_member (m :: rest)).
    rewrite forallb_forall in *. intros t Hin.
    apply in_map_iff in Hin as [m' [<- Hin]].
    apply pretty_member_printable. now apply Hall.
Qed.

(** X6. A complete report has one line per label, one blank line, and
    for the array and the object one line per item plus two for the
    brackets (one line when empty): line breaks inside cell texts are
    escaped and add no line.  As for X5 the [repr] of each float cell
    has to be printable ASCII. *)
Theorem report_line_count (fs : filesystem) (wb : workbook) :
  load_workbook fs template_path = Ok wb ->
  completes fs ->
  forallb float_repr_printable (headers (active wb)) = true ->
  forallb float_repr_printable (row_data (active wb)) = true ->
  line_count (stdout_text (run fs))
  = (5 + block_line_ends (length (headers (active wb)))
     + block_line_ends (length (sample (active wb))))%nat.
Proof.
  unfold completes. intros Hload Hdone Hh Hr.
  rewrite (body_opened _ _ Hload) in Hdone. rewrite (run_opened _ _ Hload).
  rewrite json_dumps_list, json_dumps_dict in *.
  destruct (find _ (headers (active wb))); [discriminate|].
  destruct (dict_failure (sample_record (active wb))); [discriminate|].
  rewrite stdout_text_report, !line_count_app.
  rewrite (line_count_pretty_array _ (headers_texts_printable _ Hh)).
  rewrite (line_count_pretty_object _ (sample_texts_printable _ Hr)).
  change (line_count (lit "HEADERS:")) with 0%nat.
  change (line_count (lit "SAMPLE ROW:")) with 0%nat.
  change (line_count NL) with 1%nat.
  unfold sample_record. rewrite !length_map. lia.
Qed.

Lemma report_line_count_witness :
  completes (template_is (Holds {| active := accent_sheet |}))
  /\ line_count
       (stdout_text (run (template_is (Holds {| active := accent_sheet |}))))
     = 9%nat.
Proof.
  assert (Hdone : completes (template_is (Holds {| active := accent_sheet |})))
    by reflexivity.
  split; [exact Hdone|].
  exact (report_line_count (template_is (Holds {| active := accent_sheet |}))
           {| active := accent_sheet |} eq_refl Hdone eq_refl eq_refl).
Defined.

(** ** The names of the members *)

Lemma distinct_str_member_keys : forall ks,
  distinct ks -> forallb is_str ks = true -> NoDup (map member_key ks).
Proof.
  induction ks as [|k rest IH]; simpl; intros Hd Hstr; [constructor|].
  destruct Hd as [Hk Hrest]. apply andb_true_iff in Hstr as [Hks Hstr].
  constructor; [|now apply IH].
  intros Hin. apply in_map_iff in Hin as [k' [Heq Hin']].
  specialize (Hk k' Hin').
  rewrite forallb_forall in Hstr. specialize (Hstr k' Hin').
  destruct k; try discriminate. destruct k'; try discriminate.
  cbn in Heq. subst. cbn [py_eq numeric] in Hk.
  rewrite (proj2 (pystr_eqb_eq s s) eq_refl) in Hk. discriminate.
Qed.

Lemma sample_record_keys_are_headers sheet k :
  In k (keys (sample_record sheet)) -> In k (headers sheet).
Proof.
  unfold sample_record. rewrite keys_map_convert_pair. intros Hin.
  apply in_map_iff in Hin as [[k0 v0] [<- Hin]].
  exact (proj1 (sample_entry_origin _ _ _ Hin)).
Qed.

(** X7. When every header is text, the members of the sample object
    have pairwise different names: a header that repeats gives one
    member, not two. *)
Theorem text_headers_give_distinct_names (sheet : worksheet) :
  forallb is_str (headers sheet) = true ->
  NoDup (map fst (map member_of (sample_record sheet))).
Proof.
  intros Hstr.
  replace (map fst (map member_of (sample_record sheet)))
    with (map member_key (keys (sample_record sheet)))
    by (unfold keys, member_of; rewrite !map_map; reflexivity).
  apply distinct_str_member_keys.
  - unfold sample_record. rewrite keys_map_convert_pair. apply dict_of_distinct.
  - rewrite forallb_forall in *. intros k Hin.
    apply Hstr. now apply sample_record_keys_are_headers.
Qed.

Lemma text_headers_give_distinct_names_witness :
  forallb is_str (headers (sheet_of 2 [hA; hB; hA] [VInt 1; VInt 2; a_date])) = true
  /\ map fst (map member_of
                (sample_record (sheet_of 2 [hA; hB; hA] [VInt 1; VInt 2; a_date])))
     = [lit "A"; lit "B"]
  /\ NoDup (map fst (map member_of
                (sample_record (sheet_of 2 [hA; hB; hA] [VInt 1; VInt 2; a_date])))).
Proof.
  split; [reflexivity|]. split; [reflexivity|].
  exact (text_headers_give_distinct_names
           (sheet_of 2 [hA; hB; hA] [VInt 1; VInt 2; a_date]) eq_refl).
Defined.

(** ** A file that cannot be opened *)

(** X8. When the reader refuses the file, for whatever reason, the run
    prints [Error: ] and the message of the exception as it is, and
    nothing else; the output has one line more than the message has
    line ends, so it is a single line only for a one-line message. *)
Theorem unopenable_file_prints_message
  (fs : filesystem) (why : open_error) (message : pystr) :
  fs template_path = Unopenable why message ->
  run fs = {| printed := [lit "Error: " ++ message]; uncaught := None |}
  /\ stdout_text (run fs) = lit "Error: " ++ message ++ NL
  /\ line_count (stdout_text (run fs)) = S (line_count message).
Proof.
  intros Hstate.
  assert (Hrun : run fs
                 = {| printed := [lit "Error: " ++ message]; uncaught := None |}).
  { rewrite (run_open_fails fs
               {| exn_type := open_error_class why; exn_str := message |}).
    - reflexivity.
    - unfold load_workbook. now rewrite Hstate. }
  rewrite Hrun. unfold stdout_text. cbn [printed map concat].
  rewrite app_nil_r, <- app_assoc. repeat split.
  rewrite !line_count_app.
  change (line_count (lit "Error: ")) with 0%nat.
  change (line_count NL) with 1%nat. lia.
Qed.

Lemma unopenable_file_prints_message_witness :
  template_is (Unopenable PermissionDenied (lit "denied" ++ NL ++ lit "twice"))
    template_path
  = Unopenable PermissionDenied (lit "denied" ++ NL ++ lit "twice")
  /\ line_count
       (stdout_text
          (run (template_is
                  (Unopenable PermissionDenied (lit "denied" ++ NL ++ lit "twice")))))
     = 2%nat.
Proof.
  split; [reflexivity|].
  exact (proj2 (proj2 (unopenable_file_prints_message
                         (template_is (Unopenable PermissionDenied
                                         (lit "denied" ++ NL ++ lit "twice")))
                         PermissionDenied (lit "denied" ++ NL ++ lit "twice")
                         eq_refl))).
Defined.

(** ** One member per column *)

Lemma zip_combine : forall xs ys, zip xs ys = combine xs ys.
Proof.
  induction xs as [|x xs IH]; intros [|y ys]; simpl; try reflexivity.
Qed.

Lemma keys_combine_same_length : forall (xs ys : list value),
  length xs = length ys -> keys (combine xs ys) = xs.
Proof.
  induction xs as [|x xs IH]; intros [|y ys] Hlen; simpl in *;
    try discriminate; [reflexivity|].
  f_equal. apply IH. lia.
Qed.

(** X9. When the headers differ from one another and the sample row has
    as many cells as row 1, the record has one entry per column, in
    column order: the header of the column with its sample value, a
    date/time value as its ISO text. *)
Theorem distinct_headers_one_member_per_column (sheet : worksheet) :
  distinct (headers sheet) ->
  length (headers sheet) = length (row_data sheet) ->
  sample_record sheet
  = map convert_pair (combine (headers sheet) (row_data sheet))
  /\ length (sample_record sheet) = length (headers sheet)
  /\ keys (sample_record sheet) = headers sheet.
Proof.
  intros Hd Hlen.
  assert (Hk : keys (combine (headers sheet) (row_data sheet)) = headers sheet)
    by now apply keys_combine_same_length.
  assert (Hs : sample sheet = combine (headers sheet) (row_data sheet)).
  { unfold sample. rewrite zip_combine. apply dict_of_fresh. now rewrite Hk. }
  unfold sample_record. rewrite Hs. repeat split.
  - rewrite length_map, length_combine. lia.
  - now rewrite keys_map_convert_pair.
Qed.

Lemma distinct_headers_one_member_per_column_witness :
  sample_record (sheet_of 2 [hA; hB; hC] [VInt 1; a_date; VNone])
  = [(hA, VInt 1); (hB, VStr (lit "2024-01-31")); (hC, VNone)].
Proof.
  assert (Hd : distinct (headers (sheet_of 2 [hA; hB; hC] [VInt 1; a_date; VNone]))).
  { simpl. repeat split; intros k' Hin; simpl in Hin;
      repeat (destruct Hin as [<-|Hin]; [reflexivity|]); contradiction. }
  rewrite (proj1 (distinct_headers_one_member_per_column
                    (sheet_of 2 [hA; hB; hC] [VInt 1; a_date; VNone])
                    Hd eq_refl)).
  reflexivity.
Defined.

(** A header that repeats keeps the place of its first column. *)
Example members_order_with_repeat :
  keys (sample_record (sheet_of 2 [hB; hA; hB; hC] [VInt 1; VInt 2; VInt 3; VInt 4]))
  = [hB; hA; hC].
Proof. reflexivity. Qed.

(** A number and the text of that number are two keys with one name. *)
Example number_and_text_share_a_name :
  map fst (map member_of
             (sample_record (sheet_of 2 [VInt 1; VStr (lit "1")] [hA; hB])))
  = [lit "1"; lit "1"].
Proof. reflexivity. Qed.

(** ** The shapes of standard output, all of them *)

Lemma default_error_one_line v : line_count (error_line (default_error v)) = 0%nat.
Proof. apply line_count_printable, default_error_line_printable. Qed.

(** C3, amended. Standard output is one of four things: the full
    report; the message of the handler alone, [Error: ] and the text of
    the exception with the lines that text has, when the body fails
    before its first [print]; the [HEADERS:] label and a one-line error
    message, when [json.dumps] refuses a header; or the label, the
    header array, the blank line, the [SAMPLE ROW:] label and a one-line
    error message, when [json.dumps] refuses a sample value. *)
Theorem report_error_or_cut_report (fs : filesystem) :
  complete_report fs
  \/ error_message_only fs
  \/ cut_after_headers_label fs
  \/ cut_after_sample_label fs.
Proof.
  destruct (load_workbook fs template_path) as [wb|e] eqn:Hload.
  - pose proof (run_opened _ _ Hload) as Hrun.
    rewrite json_dumps_list, json_dumps_dict in Hrun.
    destruct (find _ (headers (active wb))) as [bad|] eqn:Hfind.
    + right. right. left. exists wb, (default_error bad).
      rewrite json_dumps_list, Hfind, Hrun.
      repeat split; auto using default_error_one_line.
    + pose proof (find_none_forallb _ Hfind) as Hall.
      pose proof (dict_failure_values _ (sample_record_keys_ok _ Hall)) as Hd.
      destruct (dict_failure (sample_record (active wb))) as [e|] eqn:Hfail.
      * destruct Hd as (k & v & _ & _ & ->).
        right. right. right. eexists wb, _, (default_error v).
        rewrite json_dumps_list, json_dumps_dict, Hfind, Hfail, Hrun.
        repeat split; auto using default_error_one_line.
      * left. eexists wb, _, _.
        rewrite json_dumps_list, json_dumps_dict, Hfind, Hfail, Hrun.
        repeat split; auto.
  - right. left. exists e.
    rewrite (body_open_fails _ _ Hload), (run_open_fails _ _ Hload).
    repeat split; auto. unfold stdout_text, error_line. cbn [printed map concat].
    now rewrite app_nil_r, <- app_assoc.
Qed.
